(** * Silence trimming backend: keep-interval inversion and request handling

    A shallow embedding of [src/backend/main.py]: the function
    [get_non_silent_chunks] (the inversion of pydub's silence list into the
    list of intervals to keep) and the Flask handler [process_video].

    Conventions of the embedding.
    - Python [int] values (milliseconds, [len(audio)]) are [Z].
    - Python [float] values are exact rationals [Q]: [x / 1000.0] is the
      rational [x # 1000] and [-70 + p] is rational addition.  Binary64
      rounding, [nan] and [inf] are not modelled.
    - The libraries the program calls (pydub, moviepy, Flask, the builtin
      [float]) are a record [Env] of functions; a raised exception is [None].
    - Calls to [logging] are left out: they do not change any result. *)

From Stdlib Require Import ZArith QArith Bool List String Ascii Lia Lqa Sorted.
Import ListNotations.

Local Open Scope Z_scope.

(** ** Numbers *)

(** A Python [float], idealised as a rational. *)
Abbreviation pyfloat := Q (only parsing).

(** [ms / 1000.0] for an [int] number of milliseconds. *)
Definition to_sec (ms : Z) : pyfloat := Qmake ms 1000.

(** A keep interval [(start_sec, end_sec)], as the tuples of the source. *)
Definition chunk : Type := (pyfloat * pyfloat)%type.

(** ** pydub *)

(** What the program uses of an [AudioSegment]: [len(audio)], in
    milliseconds. *)
Record AudioSegment : Type := mkAudio { audio_len : Z }.

(** ** The inversion loop of [get_non_silent_chunks] (lines 34-46) *)

(** One iteration of [for start_ms, end_ms in silence_chunks]; the loop state
    is the pair [(non_silent_chunks, last_end_ms)]. *)
Definition invert_step (st : list chunk * Z) (sil : Z * Z) : list chunk * Z :=
  let '(non_silent_chunks, last_end_ms) := st in
  let '(start_ms, end_ms) := sil in
  ((if start_ms >? last_end_ms
    then non_silent_chunks ++ [(to_sec last_end_ms, to_sec start_ms)]
    else non_silent_chunks),
   end_ms).

Definition invert_loop (silence_chunks : list (Z * Z)) : list chunk * Z :=
  fold_left invert_step silence_chunks ([], 0).

(** Lines 30-46: everything after the call of [detect_silence]. *)
Definition non_silent_of (audio : AudioSegment) (silence_chunks : list (Z * Z))
  : list chunk :=
  match silence_chunks with
  | [] => [(inject_Z 0, to_sec (audio_len audio))]
  | _ :: _ =>
      let '(non_silent_chunks, last_end_ms) := invert_loop silence_chunks in
      if last_end_ms <? audio_len audio
      then non_silent_chunks ++ [(to_sec last_end_ms, to_sec (audio_len audio))]
      else non_silent_chunks
  end.

(** ** The world outside the program *)

(** What the program uses of a moviepy clip: whether [clip.audio] is not
    [None]. *)
Record VideoClip : Type := mkClip { clip_name : string; has_audio : bool }.

(** The collaborators.  [None] (or [false] for a call made for its effect)
    stands for a raised exception. *)
Record Env : Type := mkEnv {
  (* the builtin float applied to a form string *)
  float_of_str : string -> option pyfloat;
  (* the names tempfile.NamedTemporaryFile gives out, in order *)
  video_path : string;
  audio_path : string;
  output_path : string;
  (* moviepy *)
  VideoFileClip : string -> option VideoClip;
  write_audiofile : VideoClip -> string -> bool;
  subclip : VideoClip -> pyfloat -> pyfloat -> option VideoClip;
  concatenate_videoclips : list VideoClip -> option VideoClip;
  write_videofile : VideoClip -> string -> bool;
  (* pydub *)
  from_file : string -> option AudioSegment;
  detect_silence : AudioSegment -> Z -> pyfloat -> list (Z * Z)
}.

(** ** [get_non_silent_chunks] (lines 16-46) *)

Definition get_non_silent_chunks (env : Env) (audio_path : string)
    (silence_thresh_db : pyfloat) (min_silence_len_ms : Z)
  : option (list chunk) :=
  match from_file env audio_path with
  | None => None
  | Some audio =>
      let silence_chunks :=
        detect_silence env audio min_silence_len_ms silence_thresh_db in
      Some (non_silent_of audio silence_chunks)
  end.

(** ** Requests, responses and the calls the handler makes *)

Record Request : Type := mkRequest {
  files_video : option string;      (* request.files['video'], its filename *)
  form_threshold : option string    (* request.form['threshold'] *)
}.

Inductive Response : Type :=
| Json (status : Z) (error : string)        (* jsonify({"error": ...}), status *)
| SendFile (path download_name : string)    (* send_file(...) *)
| Uncaught.                                 (* an exception left the handler *)

Inductive Event : Type :=
| EvSave (path : string)
| EvVideoFileClip (path : string)
| EvWriteAudio (path : string)
| EvGetNonSilentChunks (path : string) (silence_thresh_db : pyfloat)
    (min_silence_len_ms : Z)
| EvSubclip (start_sec end_sec : pyfloat)
| EvConcatenate (subclips : list VideoClip)
| EvWriteVideo (path : string)
| EvRemove (path : string).

(** The state of one run of the handler: the calls made so far and the
    local variable [output_path]. *)
Record St : Type := mkSt { trace : list Event; out : option string }.

(** A computation inside the [try] block: it changes the state and either
    yields a value or raises. *)
Definition M (A : Type) : Type := St -> option A * St.

Definition ret {A} (a : A) : M A := fun st => (Some a, st).

Definition bind {A B} (m : M A) (k : A -> M B) : M B :=
  fun st => match m st with
            | (Some a, st') => k a st'
            | (None, st') => (None, st')
            end.

Notation "x <- m ;; k" := (bind m (fun x => k))
  (at level 61, m at next level, right associativity).

(** A call of a collaborator: it is recorded, then its outcome is used. *)
Definition call {A} (ev : Event) (outcome : option A) : M A :=
  fun st => (outcome, mkSt (trace st ++ [ev]) (out st)).

Definition set_out (p : string) : M unit :=
  fun st => (Some tt, mkSt (trace st) (Some p)).

Definition ok (b : bool) : option unit := if b then Some tt else None.

Fixpoint for_each {A B} (f : A -> M B) (l : list A) : M (list B) :=
  match l with
  | [] => ret []
  | a :: r => b <- f a ;; bs <- for_each f r ;; ret (b :: bs)
  end.

(** ** [process_video] (lines 49-112) *)

(** Line 58: [float(request.form.get('threshold', 30))]. *)
Definition threshold_percent (env : Env) (req : Request) : option pyfloat :=
  match form_threshold req with
  | None => Some (inject_Z 30)
  | Some s => float_of_str env s
  end.

(** Line 59. *)
Definition silence_thresh_db (threshold_percent : pyfloat) : pyfloat :=
  (-70 + threshold_percent)%Q.

(** Line 60. *)
Definition min_silence_len_ms : Z := 500.

(** Line 85, one element of the list comprehension:
    [video_clip.subclip(start, end)]. *)
Definition extract (env : Env) (video_clip : VideoClip) (c : chunk)
  : M VideoClip :=
  let '(start, end_) := c in
  call (EvSubclip start end_) (subclip env video_clip start end_).

(** The body of the [try] block (lines 72-100). *)
Definition try_block (env : Env) (filename : string)
    (thresh : pyfloat) (min_len : Z) : M Response :=
  video_clip <- call (EvVideoFileClip (video_path env))
                     (VideoFileClip env (video_path env)) ;;
  if negb (has_audio video_clip) then
    ret (Json 400 "Video file does not contain an audio track.")
  else
    _ <- call (EvWriteAudio (audio_path env))
              (ok (write_audiofile env video_clip (audio_path env))) ;;
    non_silent_timestamps <-
      call (EvGetNonSilentChunks (audio_path env) thresh min_len)
           (get_non_silent_chunks env (audio_path env) thresh min_len) ;;
    match non_silent_timestamps with
    | [] => ret (Json 400 "No audio detected in the video")
    | _ :: _ =>
        subclips <- for_each (extract env video_clip) non_silent_timestamps ;;
        final_clip <- call (EvConcatenate subclips)
                           (concatenate_videoclips env subclips) ;;
        _ <- set_out (output_path env) ;;
        _ <- call (EvWriteVideo (output_path env))
                  (ok (write_videofile env final_clip (output_path env))) ;;
        ret (SendFile (output_path env) ("processed_" ++ filename))
    end.

(** The [finally] block (lines 105-112); the temporary files exist, they
    were created with [delete=False]. *)
Definition finally (env : Env) (st : St) : St :=
  let removed :=
    [EvRemove (video_path env); EvRemove (audio_path env)]
    ++ match out st with
       | Some p => [EvRemove p]
       | None => []
       end in
  mkSt (trace st ++ removed) (out st).

(** The handler: its response and the calls it made, in order. *)
Definition process_video (env : Env) (req : Request) : Response * list Event :=
  match files_video req with
  | None => (Json 400 "No video file provided", [])
  | Some filename =>
      match threshold_percent env req with
      | None => (Uncaught, [])      (* ValueError, raised before the try *)
      | Some percent =>
          let st0 := mkSt [EvSave (video_path env)] None in
          let '(r, st1) :=
            try_block env filename (silence_thresh_db percent)
                      min_silence_len_ms st0 in
          let response :=
            match r with
            | Some response => response
            | None =>
                Json 500 "An internal error occurred during video processing."
            end in
          (response, trace (finally env st1))
      end
  end.

(** ** Vocabulary of the specification *)

(** An interval in milliseconds, read in seconds. *)
Definition sec (iv : Z * Z) : chunk := (to_sec (fst iv), to_sec (snd iv)).

(** The silence list as intervals in seconds. *)
Definition silence_sec (silence_chunks : list (Z * Z)) : list chunk :=
  map sec silence_chunks.

(** An interval of the data model inside the timeline [[0, D]]:
    [0 <= start < end <= D]. *)
Definition interval_in (D : Z) (iv : Z * Z) : bool :=
  (0 <=? fst iv) && (fst iv <? snd iv) && (snd iv <=? D).

(** Sorted and non-overlapping: each interval ends no later than the next
    one starts. *)
Fixpoint non_overlapping (l : list (Z * Z)) : bool :=
  match l with
  | a :: (b :: _) as r => (snd a <=? fst b) && non_overlapping r
  | _ => true
  end.

Definition well_formed (D : Z) (silence_chunks : list (Z * Z)) : bool :=
  forallb (interval_in D) silence_chunks && non_overlapping silence_chunks.

(** [t] lies in the half-open interval [[start, end)]. *)
Definition covers (iv : chunk) (t : Q) : bool :=
  Qle_bool (fst iv) t && negb (Qle_bool (snd iv) t).

(** How many intervals of [l] contain the point [t]. *)
Definition coverage (l : list chunk) (t : Q) : nat :=
  List.length (filter (fun iv => covers iv t) l).

(** Keep intervals in timeline order: a later interval starts strictly after
    an earlier one starts, and not before it ends. *)
Definition before (a b : chunk) : Prop :=
  (fst a < fst b)%Q /\ (snd a <= fst b)%Q.

(** Events of media assembly: clip extraction and concatenation. *)
Definition is_assembly (ev : Event) : bool :=
  match ev with
  | EvSubclip _ _ | EvConcatenate _ | EvWriteVideo _ => true
  | _ => false
  end.

(** A response that rejects the request as invalid input. *)
Definition is_rejection (r : Response) : bool :=
  match r with
  | Json 400 _ => true
  | _ => false
  end.

(** ** A recursive reading of the inversion, used in the proofs *)

(** The keep intervals, in milliseconds, produced from cursor [last] on. *)
Fixpoint gaps_ms (D : Z) (last : Z) (l : list (Z * Z)) : list (Z * Z) :=
  match l with
  | [] => if last <? D then [(last, D)] else []
  | (s, e) :: r => (if s >? last then [(last, s)] else []) ++ gaps_ms D e r
  end.

(** The silence list seen from a cursor [c]: [c <= s1 < e1 <= s2 < ... <= D]. *)
Fixpoint chain (D : Z) (c : Z) (l : list (Z * Z)) : Prop :=
  match l with
  | [] => c <= D
  | (s, e) :: r => c <= s /\ s < e /\ chain D e r
  end.

(** The same order on intervals in milliseconds. *)
Definition before_ms (a b : Z * Z) : Prop := fst a < fst b /\ snd a <= fst b.

(** One interval over a point: 1 when it contains the point, else 0. *)
Definition count1 (iv : chunk) (t : Q) : nat := if covers iv t then 1 else 0.

(** The ways the [try] block can go: what it yields ([None]: an exception
    reaches the [except] clause) and the calls it makes. *)
Inductive TryRun (env : Env) (filename : string) (thresh : pyfloat)
    (min_len : Z) : option Response -> list Event -> Prop :=
| RunOpenFails :
    VideoFileClip env (video_path env) = None ->
    TryRun env filename thresh min_len None
      [EvVideoFileClip (video_path env)]
| RunNoAudio (video_clip : VideoClip) :
    VideoFileClip env (video_path env) = Some video_clip ->
    has_audio video_clip = false ->
    TryRun env filename thresh min_len
      (Some (Json 400 "Video file does not contain an audio track."))
      [EvVideoFileClip (video_path env)]
| RunWriteAudioFails (video_clip : VideoClip) :
    VideoFileClip env (video_path env) = Some video_clip ->
    has_audio video_clip = true ->
    write_audiofile env video_clip (audio_path env) = false ->
    TryRun env filename thresh min_len None
      [EvVideoFileClip (video_path env); EvWriteAudio (audio_path env)]
| RunDetectFails (video_clip : VideoClip) :
    VideoFileClip env (video_path env) = Some video_clip ->
    has_audio video_clip = true ->
    write_audiofile env video_clip (audio_path env) = true ->
    get_non_silent_chunks env (audio_path env) thresh min_len = None ->
    TryRun env filename thresh min_len None
      [EvVideoFileClip (video_path env); EvWriteAudio (audio_path env);
       EvGetNonSilentChunks (audio_path env) thresh min_len]
| RunNothingToKeep (video_clip : VideoClip) :
    VideoFileClip env (video_path env) = Some video_clip ->
    has_audio video_clip = true ->
    write_audiofile env video_clip (audio_path env) = true ->
    get_non_silent_chunks env (audio_path env) thresh min_len = Some [] ->
    TryRun env filename thresh min_len
      (Some (Json 400 "No audio detected in the video"))
      [EvVideoFileClip (video_path env); EvWriteAudio (audio_path env);
       EvGetNonSilentChunks (audio_path env) thresh min_len]
| RunAssembly (video_clip : VideoClip) (c : chunk) (l : list chunk)
    (r : option Response) (evs : list Event) :
    VideoFileClip env (video_path env) = Some video_clip ->
    has_audio video_clip = true ->
    write_audiofile env video_clip (audio_path env) = true ->
    get_non_silent_chunks env (audio_path env) thresh min_len
    = Some (c :: l) ->
    r = None
    \/ r = Some (SendFile (output_path env) ("processed_" ++ filename)) ->
    forallb is_assembly evs = true ->
    TryRun env filename thresh min_len r
      ([EvVideoFileClip (video_path env); EvWriteAudio (audio_path env);
        EvGetNonSilentChunks (audio_path env) thresh min_len] ++ evs).

(** What the [finally] block adds to the calls, and what the handler answers
    after the [try] block. *)
Definition removed (env : Env) (o : option string) : list Event :=
  [EvRemove (video_path env); EvRemove (audio_path env)]
  ++ match o with
     | Some p => [EvRemove p]
     | None => []
     end.

Definition answer (r : option Response) : Response :=
  match r with
  | Some response => response
  | None => Json 500 "An internal error occurred during video processing."
  end.

(** ** Further vocabulary: durations, separation, the clips extracted *)

(** The total duration of a list of intervals, in seconds. *)
Definition total (l : list chunk) : Q :=
  fold_right (fun iv acc => (snd iv - fst iv) + acc)%Q 0%Q l.

(** The same in milliseconds. *)
Definition total_ms (l : list (Z * Z)) : Z :=
  fold_right (fun iv acc => (snd iv - fst iv) + acc) 0 l.

(** Intervals that do not even touch: each one ends strictly before the
    next one starts. *)
Fixpoint separated (l : list (Z * Z)) : bool :=
  match l with
  | a :: (b :: _) as r => (snd a <? fst b) && separated r
  | _ => true
  end.

(** A later interval starts strictly after an earlier one ends. *)
Definition apart (a b : chunk) : Prop := (snd a < fst b)%Q.

Definition apart_ms (a b : Z * Z) : Prop := snd a < fst b.

(** Two intervals with the same end points as rational numbers. *)
Definition same_chunk (a b : chunk) : Prop :=
  (fst a == fst b)%Q /\ (snd a == snd b)%Q.

(** The call [video_clip.subclip(start, end)] made for a keep interval. *)
Definition subclip_event (c : chunk) : Event := EvSubclip (fst c) (snd c).

Definition is_subclip (ev : Event) : bool :=
  match ev with
  | EvSubclip _ _ => true
  | _ => false
  end.

(** A silence list seen from the end [e] of a silence interval, when the
    intervals are separated: [e < s1 < e1 < s2 < ... <= D]. *)
Fixpoint apart_chain (D : Z) (e : Z) (l : list (Z * Z)) : Prop :=
  match l with
  | [] => e <= D
  | (s', e') :: r => e < s' /\ s' < e' /\ apart_chain D e' r
  end.

(** [subclip] succeeds on a keep interval and gives the clip [v]. *)
Definition extracted (env : Env) (video_clip : VideoClip) (c : chunk)
    (v : VideoClip) : Prop :=
  subclip env video_clip (fst c) (snd c) = Some v.

(** The first three calls of a run that reaches the detection. *)
Definition opening (env : Env) (thresh : pyfloat) (min_len : Z) : list Event :=
  [EvVideoFileClip (video_path env); EvWriteAudio (audio_path env);
   EvGetNonSilentChunks (audio_path env) thresh min_len].

(** The runs of the [try] block in full: what it yields, every call it
    makes, in order, and the value of the local variable [output_path] at
    its end. *)
Inductive FullRun (env : Env) (filename : string) (thresh : pyfloat)
    (min_len : Z) : option Response -> list Event -> option string -> Prop :=
| FullOpenFails :
    VideoFileClip env (video_path env) = None ->
    FullRun env filename thresh min_len None
      [EvVideoFileClip (video_path env)] None
| FullNoAudio (video_clip : VideoClip) :
    VideoFileClip env (video_path env) = Some video_clip ->
    has_audio video_clip = false ->
    FullRun env filename thresh min_len
      (Some (Json 400 "Video file does not contain an audio track."))
      [EvVideoFileClip (video_path env)] None
| FullWriteAudioFails (video_clip : VideoClip) :
    VideoFileClip env (video_path env) = Some video_clip ->
    has_audio video_clip = true ->
    write_audiofile env video_clip (audio_path env) = false ->
    FullRun env filename thresh min_len None
      [EvVideoFileClip (video_path env); EvWriteAudio (audio_path env)] None
| FullDetectFails (video_clip : VideoClip) :
    VideoFileClip env (video_path env) = Some video_clip ->
    has_audio video_clip = true ->
    write_audiofile env video_clip (audio_path env) = true ->
    get_non_silent_chunks env (audio_path env) thresh min_len = None ->
    FullRun env filename thresh min_len None
      (opening env thresh min_len) None
| FullNothingToKeep (video_clip : VideoClip) :
    VideoFileClip env (video_path env) = Some video_clip ->
    has_audio video_clip = true ->
    write_audiofile env video_clip (audio_path env) = true ->
    get_non_silent_chunks env (audio_path env) thresh min_len = Some [] ->
    FullRun env filename thresh min_len
      (Some (Json 400 "No audio detected in the video"))
      (opening env thresh min_len) None
| FullSubclipFails (video_clip : VideoClip) (done rest : list chunk)
    (c : chunk) :
    VideoFileClip env (video_path env) = Some video_clip ->
    has_audio video_clip = true ->
    write_audiofile env video_clip (audio_path env) = true ->
    get_non_silent_chunks env (audio_path env) thresh min_len
    = Some (done ++ c :: rest) ->
    Forall (fun d => subclip env video_clip (fst d) (snd d) <> None) done ->
    subclip env video_clip (fst c) (snd c) = None ->
    FullRun env filename thresh min_len None
      (opening env thresh min_len ++ map subclip_event (done ++ [c])) None
| FullConcatenateFails (video_clip : VideoClip) (keep : list chunk)
    (subclips : list VideoClip) :
    VideoFileClip env (video_path env) = Some video_clip ->
    has_audio video_clip = true ->
    write_audiofile env video_clip (audio_path env) = true ->
    get_non_silent_chunks env (audio_path env) thresh min_len = Some keep ->
    keep <> [] ->
    Forall2 (extracted env video_clip) keep subclips ->
    concatenate_videoclips env subclips = None ->
    FullRun env filename thresh min_len None
      (opening env thresh min_len ++ map subclip_event keep
       ++ [EvConcatenate subclips])
      None
| FullWriteVideoFails (video_clip : VideoClip) (keep : list chunk)
    (subclips : list VideoClip) (final_clip : VideoClip) :
    VideoFileClip env (video_path env) = Some video_clip ->
    has_audio video_clip = true ->
    write_audiofile env video_clip (audio_path env) = true ->
    get_non_silent_chunks env (audio_path env) thresh min_len = Some keep ->
    keep <> [] ->
    Forall2 (extracted env video_clip) keep subclips ->
    concatenate_videoclips env subclips = Some final_clip ->
    write_videofile env final_clip (output_path env) = false ->
    FullRun env filename thresh min_len None
      (opening env thresh min_len ++ map subclip_event keep
       ++ [EvConcatenate subclips; EvWriteVideo (output_path env)])
      (Some (output_path env))
| FullSuccess (video_clip : VideoClip) (keep : list chunk)
    (subclips : list VideoClip) (final_clip : VideoClip) :
    VideoFileClip env (video_path env) = Some video_clip ->
    has_audio video_clip = true ->
    write_audiofile env video_clip (audio_path env) = true ->
    get_non_silent_chunks env (audio_path env) thresh min_len = Some keep ->
    keep <> [] ->
    Forall2 (extracted env video_clip) keep subclips ->
    concatenate_videoclips env subclips = Some final_clip ->
    write_videofile env final_clip (output_path env) = true ->
    FullRun env filename thresh min_len
      (Some (SendFile (output_path env) ("processed_" ++ filename)))
      (opening env thresh min_len ++ map subclip_event keep
       ++ [EvConcatenate subclips; EvWriteVideo (output_path env)])
      (Some (output_path env)).




(** ** Concrete worlds for the examples *)

Definition digit_of (c : ascii) : option Z :=
  let n := Z.of_N (N_of_ascii c) in
  if (48 <=? n) && (n <=? 57) then Some (n - 48) else None.

Fixpoint digits (s : string) (acc : Z) : option Z :=
  match s with
  | EmptyString => Some acc
  | String c r =>
      match digit_of c with
      | Some d => digits r (10 * acc + d)
      | None => None
      end
  end.

(** A stand-in for the builtin [float] in the example worlds: it reads the
    strings made of decimal digits and raises on every other string (the
    builtin accepts more). *)
Definition float_of_digits (s : string) : option pyfloat :=
  match s with
  | EmptyString => None
  | _ => option_map inject_Z (digits s 0)
  end.

(** A world where every collaborator succeeds, for an audio track of
    [len_ms] milliseconds on which pydub reports [silence]. *)
Definition world (len_ms : Z) (silence : list (Z * Z)) : Env :=
  {| float_of_str := float_of_digits;
     video_path := "/tmp/in.mp4";
     audio_path := "/tmp/audio.wav";
     output_path := "/tmp/out.mp4";
     VideoFileClip := fun p => Some (mkClip p true);
     write_audiofile := fun _ _ => true;
     subclip := fun c _ _ => Some c;
     concatenate_videoclips :=
       fun l => match l with [] => None | c :: _ => Some c end;
     write_videofile := fun _ _ => true;
     from_file := fun _ => Some (mkAudio len_ms);
     detect_silence := fun _ _ _ => silence |}.

(** The same world, except that the encoding of the output file fails. *)
Definition world_encoding_fails (len_ms : Z) (silence : list (Z * Z)) : Env :=
  {| float_of_str := float_of_digits;
     video_path := "/tmp/in.mp4";
     audio_path := "/tmp/audio.wav";
     output_path := "/tmp/out.mp4";
     VideoFileClip := fun p => Some (mkClip p true);
     write_audiofile := fun _ _ => true;
     subclip := fun c _ _ => Some c;
     concatenate_videoclips :=
       fun l => match l with [] => None | c :: _ => Some c end;
     write_videofile := fun _ _ => false;
     from_file := fun _ => Some (mkAudio len_ms);
     detect_silence := fun _ _ _ => silence |}.

(** A world where the uploaded video has no audio track. *)
Definition world_without_audio : Env :=
  {| float_of_str := float_of_digits;
     video_path := "/tmp/in.mp4";
     audio_path := "/tmp/audio.wav";
     output_path := "/tmp/out.mp4";
     VideoFileClip := fun p => Some (mkClip p false);
     write_audiofile := fun _ _ => true;
     subclip := fun c _ _ => Some c;
     concatenate_videoclips :=
       fun l => match l with [] => None | c :: _ => Some c end;
     write_videofile := fun _ _ => true;
     from_file := fun _ => None;
     detect_silence := fun _ _ _ => [] |}.

Definition upload (threshold : option string) : Request :=
  {| files_video := Some "talk.mp4"%string; form_threshold := threshold |}.

(** * Properties *)

(** ** Scenarios of the specification, run on the model *)

Example scenario_1 :
  get_non_silent_chunks (world 10000 [(2000, 3000); (6000, 6400)])
                        "/tmp/audio.wav" (-40) 500
  = Some [(to_sec 0, to_sec 2000); (to_sec 3000, to_sec 6000);
          (to_sec 6400, to_sec 10000)].
Proof. reflexivity. Qed.

Example scenario_run :
  process_video (world 10000 [(2000, 3000); (6000, 6400)]) (upload (Some "30"%string))
  = (SendFile "/tmp/out.mp4" "processed_talk.mp4",
     [EvSave "/tmp/in.mp4"; EvVideoFileClip "/tmp/in.mp4";
      EvWriteAudio "/tmp/audio.wav";
      EvGetNonSilentChunks "/tmp/audio.wav" (-40) 500;
      EvSubclip (to_sec 0) (to_sec 2000);
      EvSubclip (to_sec 3000) (to_sec 6000);
      EvSubclip (to_sec 6400) (to_sec 10000);
      EvConcatenate [mkClip "/tmp/in.mp4" true; mkClip "/tmp/in.mp4" true;
                     mkClip "/tmp/in.mp4" true];
      EvWriteVideo "/tmp/out.mp4";
      EvRemove "/tmp/in.mp4"; EvRemove "/tmp/audio.wav";
      EvRemove "/tmp/out.mp4"]).
Proof. reflexivity. Qed.

Example scenario_bad_threshold :
  process_video (world 10000 [(2000, 3000)]) (upload (Some "loud"%string))
  = (Uncaught, []).
Proof. reflexivity. Qed.

(** ** Seconds and milliseconds *)

Lemma to_sec_le (a b : Z) : a <= b <-> (to_sec a <= to_sec b)%Q.
Proof. unfold to_sec, Qle; simpl. lia. Qed.

Lemma to_sec_lt (a b : Z) : a < b <-> (to_sec a < to_sec b)%Q.
Proof. unfold to_sec, Qlt; simpl. lia. Qed.

Lemma to_sec_0 : (to_sec 0 == 0)%Q.
Proof. reflexivity. Qed.

Lemma to_sec_nonneg (a : Z) : 0 <= a -> (0 <= to_sec a)%Q.
Proof. unfold to_sec, Qle; simpl. lia. Qed.

Lemma sec_before (a b : Z * Z) : before_ms a b -> before (sec a) (sec b).
Proof.
  unfold before_ms, before, sec; cbn [fst snd]. intros [H1 H2].
  split; [apply (proj1 (to_sec_lt _ _)) | apply (proj1 (to_sec_le _ _))];
    assumption.
Qed.

Lemma StronglySorted_map {A B} (R : A -> A -> Prop) (S : B -> B -> Prop)
    (f : A -> B) (l : list A) :
  (forall a b, R a b -> S (f a) (f b)) ->
  StronglySorted R l -> StronglySorted S (map f l).
Proof.
  intros HRS H. induction H as [| a l Hl IH Ha]; simpl; constructor.
  - exact IH.
  - apply Forall_map. eapply Forall_impl; [| exact Ha]. intros b; apply HRS.
Qed.

(** ** Counting the intervals over a point *)

Lemma coverage_cons (iv : chunk) (l : list chunk) (t : Q) :
  coverage (iv :: l) t = (count1 iv t + coverage l t)%nat.
Proof. unfold coverage, count1; simpl. now destruct (covers iv t). Qed.

Lemma coverage_app (l1 l2 : list chunk) (t : Q) :
  coverage (l1 ++ l2) t = (coverage l1 t + coverage l2 t)%nat.
Proof. unfold coverage. now rewrite filter_app, length_app. Qed.

Lemma covers_iff (a b t : Q) :
  covers (a, b) t = true <-> (a <= t /\ t < b)%Q.
Proof.
  unfold covers; cbn [fst snd].
  rewrite andb_true_iff, negb_true_iff, Qle_bool_iff.
  split; intros [H1 H2]; split; try assumption.
  - apply Qnot_le_lt. intros H. apply Qle_bool_iff in H. congruence.
  - destruct (Qle_bool b t) eqn:E; [| reflexivity].
    apply Qle_bool_iff in E. exfalso. eapply Qlt_not_le; eassumption.
Qed.

Lemma count1_spec (a b t : Q) :
  ((a <= t /\ t < b)%Q /\ count1 (a, b) t = 1%nat)
  \/ (~ (a <= t /\ t < b)%Q /\ count1 (a, b) t = 0%nat).
Proof.
  unfold count1. destruct (covers (a, b) t) eqn:E.
  - left. split; [now apply covers_iff | reflexivity].
  - right. split; [| reflexivity].
    intros H. apply covers_iff in H. congruence.
Qed.

Lemma count1_in (a b t : Q) : (a <= t /\ t < b)%Q -> count1 (a, b) t = 1%nat.
Proof.
  intros H. destruct (count1_spec a b t) as [[_ E] | [N _]];
    [exact E | contradiction].
Qed.

Lemma count1_out (a b t : Q) : ~ (a <= t /\ t < b)%Q -> count1 (a, b) t = 0%nat.
Proof.
  intros H. destruct (count1_spec a b t) as [[N _] | [_ E]];
    [contradiction | exact E].
Qed.

(** Two adjacent intervals count as their union. *)
Lemma count1_split (a b c : Z) (t : Q) :
  a <= b -> b <= c ->
  (count1 (sec (a, b)) t + count1 (sec (b, c)) t)%nat = count1 (sec (a, c)) t.
Proof.
  intros Hab Hbc. unfold sec; cbn [fst snd].
  apply to_sec_le in Hab, Hbc.
  destruct (count1_spec (to_sec a) (to_sec b) t) as [[H1 E1] | [H1 E1]];
    destruct (count1_spec (to_sec b) (to_sec c) t) as [[H2 E2] | [H2 E2]];
    destruct (count1_spec (to_sec a) (to_sec c) t) as [[H3 E3] | [H3 E3]];
    rewrite E1, E2, E3; try reflexivity; exfalso; clear E1 E2 E3;
    generalize dependent (to_sec a); generalize dependent (to_sec b);
    generalize dependent (to_sec c); intros; lra.
Qed.

Lemma count1_empty (a : Z) (t : Q) : count1 (sec (a, a)) t = 0%nat.
Proof.
  unfold sec; cbn [fst snd].
  destruct (count1_spec (to_sec a) (to_sec a) t) as [[H _] | [_ E]];
    [exfalso; lra | exact E].
Qed.

(** ** The inversion on a timeline of [D] milliseconds *)

Section Timeline.

Variable D : Z.

Lemma invert_loop_spec (l : list (Z * Z)) :
  forall (acc : list chunk) (last : Z),
    (let '(non_silent_chunks, last_end_ms) :=
       fold_left invert_step l (acc, last) in
     if last_end_ms <? D
     then non_silent_chunks ++ [(to_sec last_end_ms, to_sec D)]
     else non_silent_chunks)
    = acc ++ map sec (gaps_ms D last l).
Proof.
  induction l as [| [s e] r IH]; intros acc last; simpl.
  - destruct (last <? D); simpl; [reflexivity | now rewrite app_nil_r].
  - destruct (s >? last); rewrite IH.
    + now rewrite <- app_assoc.
    + reflexivity.
Qed.

Lemma chain_of_parts (l : list (Z * Z)) :
  forall c : Z,
    c <= D ->
    match l with [] => True | a :: _ => c <= fst a end ->
    forallb (interval_in D) l = true ->
    non_overlapping l = true ->
    chain D c l.
Proof.
  induction l as [| [s e] r IH]; intros c HcD Hc Hin Hno.
  - exact HcD.
  - simpl in Hc, Hin. apply andb_true_iff in Hin as [Ha Hr].
    unfold interval_in in Ha; simpl in Ha.
    apply andb_true_iff in Ha as [Ha He].
    apply andb_true_iff in Ha as [H0 Hse].
    apply Z.leb_le in H0, He. apply Z.ltb_lt in Hse.
    simpl. repeat split; try assumption.
    apply IH; try assumption.
    + destruct r as [| [s' e'] r']; [exact I |].
      simpl in Hno. apply andb_true_iff in Hno as [Hn _].
      now apply Z.leb_le in Hn.
    + destruct r; [reflexivity |].
      simpl in Hno. now apply andb_true_iff in Hno as [_ Hn].
Qed.

Lemma well_formed_chain (l : list (Z * Z)) :
  0 <= D -> well_formed D l = true -> chain D 0 l.
Proof.
  intros HD Hwf. unfold well_formed in Hwf.
  apply andb_true_iff in Hwf as [Hin Hno].
  apply chain_of_parts; try assumption.
  destruct l as [| [s e] r]; [exact I |].
  simpl in Hin. apply andb_true_iff in Hin as [Ha _].
  unfold interval_in in Ha.
  apply andb_true_iff in Ha as [Ha _]. apply andb_true_iff in Ha as [Ha _].
  now apply Z.leb_le in Ha.
Qed.

Lemma chain_le (l : list (Z * Z)) :
  forall c : Z, chain D c l -> c <= D.
Proof.
  induction l as [| [s e] r IH]; intros c H; simpl in H.
  - exact H.
  - destruct H as (Hcs & Hse & Hr). specialize (IH e Hr). lia.
Qed.

Lemma gaps_bounds (l : list (Z * Z)) :
  forall c : Z,
    chain D c l ->
    Forall (fun iv => c <= fst iv /\ fst iv < snd iv /\ snd iv <= D)
           (gaps_ms D c l).
Proof.
  induction l as [| [s e] r IH]; intros c H; simpl in *.
  - destruct (Z.ltb_spec c D); constructor; simpl; [lia | constructor].
  - destruct H as (Hcs & Hse & Hr).
    pose proof (chain_le _ _ Hr) as HeD.
    apply Forall_app; split.
    + destruct (Z.gtb_spec s c); constructor; simpl; [lia | constructor].
    + eapply Forall_impl; [| apply IH; exact Hr].
      simpl; intros iv Hiv. lia.
Qed.

Lemma gaps_sorted (l : list (Z * Z)) :
  forall c : Z, chain D c l -> StronglySorted before_ms (gaps_ms D c l).
Proof.
  induction l as [| [s e] r IH]; intros c H; simpl in *.
  - destruct (c <? D); repeat constructor.
  - destruct H as (Hcs & Hse & Hr).
    destruct (Z.gtb_spec s c); simpl; [| now apply IH].
    constructor; [now apply IH |].
    eapply Forall_impl; [| apply gaps_bounds; exact Hr].
    unfold before_ms; simpl; intros iv Hiv. lia.
Qed.

(** From a cursor [c] on, the gaps and the silences together count as the
    single interval [[c, D)]. *)
Lemma gaps_cover (t : Q) (l : list (Z * Z)) :
  forall c : Z,
    chain D c l ->
    coverage (map sec (gaps_ms D c l) ++ silence_sec l) t
    = count1 (sec (c, D)) t.
Proof.
  induction l as [| [s e] r IH]; intros c H; simpl in H.
  - simpl. rewrite app_nil_r.
    destruct (Z.ltb_spec c D); cbn [map].
    + rewrite coverage_cons. change (coverage [] t) with 0%nat. lia.
    + assert (c = D) as -> by lia. now rewrite count1_empty.
  - destruct H as (Hcs & Hse & Hr).
    pose proof (chain_le _ _ Hr) as HeD.
    specialize (IH e Hr). rewrite coverage_app in IH.
    cbn [gaps_ms silence_sec map].
    rewrite map_app, !coverage_app, coverage_cons.
    fold (silence_sec r).
    rewrite <- (count1_split c s D t) by lia.
    rewrite <- (count1_split s e D t) by lia.
    rewrite <- IH.
    destruct (Z.gtb_spec s c); cbn [map].
    + rewrite coverage_cons. change (coverage [] t) with 0%nat. lia.
    + assert (s = c) as -> by lia. rewrite count1_empty.
      change (coverage [] t) with 0%nat. lia.
Qed.

End Timeline.

Lemma non_silent_of_cons (audio : AudioSegment) (a : Z * Z) (r : list (Z * Z)) :
  non_silent_of audio (a :: r) = map sec (gaps_ms (audio_len audio) 0 (a :: r)).
Proof.
  unfold non_silent_of, invert_loop.
  exact (invert_loop_spec (audio_len audio) (a :: r) [] 0).
Qed.

Lemma well_formed_nonneg (D : Z) (a : Z * Z) (r : list (Z * Z)) :
  well_formed D (a :: r) = true -> 0 < D.
Proof.
  unfold well_formed; simpl. intros H.
  apply andb_true_iff in H as [H _]. apply andb_true_iff in H as [H _].
  unfold interval_in in H.
  apply andb_true_iff in H as [H He]. apply andb_true_iff in H as [H0 Hse].
  apply Z.leb_le in H0, He. apply Z.ltb_lt in Hse. lia.
Qed.

Lemma well_formed_zero (l : list (Z * Z)) : well_formed 0 l = true -> l = [].
Proof.
  destruct l as [| a r]; [reflexivity |].
  intros H. apply well_formed_nonneg in H. lia.
Qed.

(** What [get_non_silent_chunks] returns once the audio file is decoded. *)
Lemma get_non_silent_chunks_decoded (env : Env) (path : string)
    (thresh : pyfloat) (min_len : Z) (audio : AudioSegment) :
  from_file env path = Some audio ->
  get_non_silent_chunks env path thresh min_len
  = Some (non_silent_of audio (detect_silence env audio min_len thresh)).
Proof. intros H. unfold get_non_silent_chunks. now rewrite H. Qed.

(** ** The inversion *)

(** C1. Inversion completeness: for a silence list that is sorted,
    non-overlapping and inside [[0, D]], every point of [[0, D)] lies in
    exactly one interval of the keep list together with the silence list, and
    a point outside [[0, D)] lies in none.  This holds for every duration
    [D], in particular for every [D > 0]. *)
Theorem inversion_covers_exactly_once (env : Env) (path : string)
    (thresh : pyfloat) (min_len : Z) (audio : AudioSegment) :
  from_file env path = Some audio ->
  well_formed (audio_len audio) (detect_silence env audio min_len thresh)
  = true ->
  exists keep : list chunk,
    get_non_silent_chunks env path thresh min_len = Some keep /\
    forall t : Q,
      ((0 <= t /\ t < to_sec (audio_len audio))%Q ->
       coverage (keep ++ silence_sec (detect_silence env audio min_len thresh)) t
       = 1%nat) /\
      (~ (0 <= t /\ t < to_sec (audio_len audio))%Q ->
       coverage (keep ++ silence_sec (detect_silence env audio min_len thresh)) t
       = 0%nat).
Proof.
  intros Hfile Hwf.
  rewrite (get_non_silent_chunks_decoded _ _ _ _ _ Hfile).
  eexists; split; [reflexivity |].
  intros t.
  assert (Hcount :
    coverage (non_silent_of audio (detect_silence env audio min_len thresh)
              ++ silence_sec (detect_silence env audio min_len thresh)) t
    = count1 (0%Q, to_sec (audio_len audio)) t).
  { destruct (detect_silence env audio min_len thresh) as [| a r] eqn:E.
    - simpl. rewrite coverage_cons. change (coverage [] t) with 0%nat.
      apply Nat.add_0_r.
    - pose proof (well_formed_nonneg _ _ _ Hwf) as HD.
      rewrite non_silent_of_cons, gaps_cover
        by (apply well_formed_chain; [lia | exact Hwf]).
      unfold sec; cbn [fst snd].
      destruct (count1_spec 0 (to_sec (audio_len audio)) t) as [[H E1] | [H E1]];
        rewrite E1; [apply count1_in | apply count1_out];
        pose proof to_sec_0; lra. }
  rewrite Hcount. split; [apply count1_in | apply count1_out].
Qed.

Lemma inversion_covers_exactly_once_witness :
  exists keep : list chunk,
    get_non_silent_chunks (world 10000 [(2000, 3000); (6000, 6400)])
                          "/tmp/audio.wav" (-40) 500 = Some keep /\
    forall t : Q,
      ((0 <= t /\ t < to_sec 10000)%Q ->
       coverage (keep ++ silence_sec [(2000, 3000); (6000, 6400)]) t = 1%nat) /\
      (~ (0 <= t /\ t < to_sec 10000)%Q ->
       coverage (keep ++ silence_sec [(2000, 3000); (6000, 6400)]) t = 0%nat).
Proof.
  apply (inversion_covers_exactly_once
           (world 10000 [(2000, 3000); (6000, 6400)])
           "/tmp/audio.wav" (-40) 500 (mkAudio 10000)).
  - reflexivity.
  - reflexivity.
Defined.

(** C3. Full-coverage emptiness: when the silence list is the single
    interval [(0, D)], the keep list is empty.  This holds for every
    duration [D], in particular for every [D > 0]. *)
Theorem full_silence_gives_empty (env : Env) (path : string)
    (thresh : pyfloat) (min_len : Z) (audio : AudioSegment) :
  from_file env path = Some audio ->
  detect_silence env audio min_len thresh = [(0, audio_len audio)] ->
  get_non_silent_chunks env path thresh min_len = Some [].
Proof.
  intros Hfile Hsil.
  rewrite (get_non_silent_chunks_decoded _ _ _ _ _ Hfile), Hsil.
  unfold non_silent_of, invert_loop; simpl.
  now rewrite Z.ltb_irrefl.
Qed.

Lemma full_silence_gives_empty_witness :
  get_non_silent_chunks (world 5000 [(0, 5000)]) "/tmp/audio.wav" (-40) 500
  = Some [].
Proof.
  apply (full_silence_gives_empty (world 5000 [(0, 5000)])
           "/tmp/audio.wav" (-40) 500 (mkAudio 5000)).
  - reflexivity.
  - reflexivity.
Defined.

(** C4. Empty-silence identity: when no silence is detected, the result is
    the single keep interval [(0, D)], returned normally ([Some], no
    exception).  This holds for every duration [D], in particular for every
    [D > 0]. *)
Theorem no_silence_gives_whole_timeline (env : Env) (path : string)
    (thresh : pyfloat) (min_len : Z) (audio : AudioSegment) :
  from_file env path = Some audio ->
  detect_silence env audio min_len thresh = [] ->
  get_non_silent_chunks env path thresh min_len
  = Some [(0%Q, to_sec (audio_len audio))].
Proof.
  intros Hfile Hsil.
  now rewrite (get_non_silent_chunks_decoded _ _ _ _ _ Hfile), Hsil.
Qed.

Lemma no_silence_gives_whole_timeline_witness :
  get_non_silent_chunks (world 5000 []) "/tmp/audio.wav" (-40) 500
  = Some [(0%Q, to_sec 5000)].
Proof.
  apply (no_silence_gives_whole_timeline (world 5000 [])
           "/tmp/audio.wav" (-40) 500 (mkAudio 5000)).
  - reflexivity.
  - reflexivity.
Defined.

(** C6. Order preservation: for a silence list that is sorted,
    non-overlapping and inside [[0, D]], the keep list is sorted strictly
    ascending by start time and its intervals do not overlap: of any two of
    them, the later one starts after the earlier one starts and not before
    it ends. *)
Theorem keep_intervals_sorted_disjoint (env : Env) (path : string)
    (thresh : pyfloat) (min_len : Z) (audio : AudioSegment) :
  from_file env path = Some audio ->
  well_formed (audio_len audio) (detect_silence env audio min_len thresh)
  = true ->
  exists keep : list chunk,
    get_non_silent_chunks env path thresh min_len = Some keep /\
    StronglySorted before keep.
Proof.
  intros Hfile Hwf.
  rewrite (get_non_silent_chunks_decoded _ _ _ _ _ Hfile).
  eexists; split; [reflexivity |].
  destruct (detect_silence env audio min_len thresh) as [| a r] eqn:E.
  - simpl. repeat constructor.
  - rewrite non_silent_of_cons.
    apply StronglySorted_map with (R := before_ms); [exact sec_before |].
    apply gaps_sorted, well_formed_chain; [| exact Hwf].
    apply well_formed_nonneg in Hwf. lia.
Qed.

Lemma keep_intervals_sorted_disjoint_witness :
  exists keep : list chunk,
    get_non_silent_chunks (world 10000 [(2000, 3000); (6000, 6400)])
                          "/tmp/audio.wav" (-40) 500 = Some keep /\
    StronglySorted before keep.
Proof.
  apply (keep_intervals_sorted_disjoint
           (world 10000 [(2000, 3000); (6000, 6400)])
           "/tmp/audio.wav" (-40) 500 (mkAudio 10000)).
  - reflexivity.
  - reflexivity.
Defined.

(** C7. For a well-formed silence list (sorted, non-overlapping, each
    interval inside [[0, D]]), no keep interval has a negative duration and
    none ends after [D]; none starts before 0 either.  This covers a silence
    interval that ends exactly at [D]. *)
Theorem keep_intervals_within_timeline (env : Env) (path : string)
    (thresh : pyfloat) (min_len : Z) (audio : AudioSegment) :
  from_file env path = Some audio ->
  0 <= audio_len audio ->
  well_formed (audio_len audio) (detect_silence env audio min_len thresh)
  = true ->
  exists keep : list chunk,
    get_non_silent_chunks env path thresh min_len = Some keep /\
    Forall (fun iv : chunk =>
              (0 <= fst iv)%Q /\ (fst iv <= snd iv)%Q /\
              (snd iv <= to_sec (audio_len audio))%Q)
           keep.
Proof.
  intros Hfile HD Hwf.
  rewrite (get_non_silent_chunks_decoded _ _ _ _ _ Hfile).
  eexists; split; [reflexivity |].
  destruct (detect_silence env audio min_len thresh) as [| a r] eqn:E.
  - simpl. constructor; [| constructor]. cbn [fst snd].
    repeat split;
      [apply Qle_refl | now apply to_sec_nonneg | apply Qle_refl].
  - rewrite non_silent_of_cons. apply Forall_map.
    eapply Forall_impl; [| apply gaps_bounds, well_formed_chain; eassumption].
    intros [s e]; unfold sec; cbn [fst snd]. intros (H0 & Hse & HeD).
    repeat split.
    + now apply to_sec_nonneg.
    + apply (proj1 (to_sec_le s e)). lia.
    + apply (proj1 (to_sec_le e (audio_len audio))). exact HeD.
Qed.

Lemma keep_intervals_within_timeline_witness :
  exists keep : list chunk,
    get_non_silent_chunks (world 10000 [(2000, 3000); (6000, 10000)])
                          "/tmp/audio.wav" (-40) 500 = Some keep /\
    Forall (fun iv : chunk =>
              (0 <= fst iv)%Q /\ (fst iv <= snd iv)%Q /\
              (snd iv <= to_sec 10000)%Q)
           keep.
Proof.
  apply (keep_intervals_within_timeline
           (world 10000 [(2000, 3000); (6000, 10000)])
           "/tmp/audio.wav" (-40) 500 (mkAudio 10000)).
  - reflexivity.
  - simpl. lia.
  - reflexivity.
Defined.

(** C8 as stated fails: on a zero-duration audio track the function raises
    nothing and returns a keep list, which the handler passes on to media
    assembly. *)
Lemma zero_duration_not_rejected :
  audio_len (mkAudio 0) = 0 /\
  get_non_silent_chunks (world 0 []) "/tmp/audio.wav" (-40) 500
  = Some [(0%Q, to_sec 0)] /\
  get_non_silent_chunks (world 0 []) "/tmp/audio.wav" (-40) 500 <> None /\
  is_rejection (fst (process_video (world 0 []) (upload None))) = false /\
  In (EvSubclip 0 (to_sec 0)) (snd (process_video (world 0 []) (upload None))).
Proof.
  repeat split; try reflexivity.
  - discriminate.
  - simpl. tauto.
Qed.

(** C8, amended: on a zero-duration audio track [get_non_silent_chunks]
    validates nothing and raises nothing: a well-formed silence list is then
    empty, and the function returns the single keep interval [(0, 0.0)] as a
    normal result. *)
Theorem zero_duration_returns_one_chunk (env : Env) (path : string)
    (thresh : pyfloat) (min_len : Z) (audio : AudioSegment) :
  from_file env path = Some audio ->
  audio_len audio = 0 ->
  well_formed (audio_len audio) (detect_silence env audio min_len thresh)
  = true ->
  detect_silence env audio min_len thresh = [] /\
  get_non_silent_chunks env path thresh min_len = Some [(0%Q, to_sec 0)].
Proof.
  intros Hfile HD Hwf. rewrite HD in Hwf.
  apply well_formed_zero in Hwf.
  rewrite (get_non_silent_chunks_decoded _ _ _ _ _ Hfile), Hwf.
  split; [reflexivity |]. simpl. now rewrite HD.
Qed.

Lemma zero_duration_returns_one_chunk_witness :
  detect_silence (world 0 []) (mkAudio 0) 500 (-40) = [] /\
  get_non_silent_chunks (world 0 []) "/tmp/audio.wav" (-40) 500
  = Some [(0%Q, to_sec 0)].
Proof.
  apply (zero_duration_returns_one_chunk (world 0 [])
           "/tmp/audio.wav" (-40) 500 (mkAudio 0)).
  - reflexivity.
  - reflexivity.
  - reflexivity.
Defined.

(** ** The runs of the [try] block *)

Lemma for_each_extract (env : Env) (video_clip : VideoClip) (l : list chunk) :
  forall st : St,
  exists evs : list Event,
    snd (for_each (extract env video_clip) l st)
    = mkSt (trace st ++ evs) (out st)
    /\ forallb is_assembly evs = true.
Proof.
  induction l as [| [s e] r IH]; intros [tr o]; cbn [for_each].
  - exists []. unfold ret; cbn [snd trace out]. now rewrite app_nil_r.
  - unfold bind at 1.
    change (extract env video_clip (s, e) (mkSt tr o))
      with (subclip env video_clip s e, mkSt (tr ++ [EvSubclip s e]) o).
    destruct (subclip env video_clip s e) as [c |].
    + destruct (IH (mkSt (tr ++ [EvSubclip s e]) o)) as (evs & Hst & Hev).
      cbn [trace out] in Hst.
      exists (EvSubclip s e :: evs). split; [| exact Hev].
      unfold bind.
      destruct (for_each (extract env video_clip) r
                  (mkSt (tr ++ [EvSubclip s e]) o)) as [[bs |] st'];
        cbn [snd] in Hst; subst st'; unfold ret; cbn [snd trace out];
        now rewrite <- app_assoc.
    + exists [EvSubclip s e]. split; reflexivity.
Qed.

Lemma try_block_run (env : Env) (filename : string) (thresh : pyfloat)
    (min_len : Z) (st : St) :
  exists (r : option Response) (evs : list Event) (o : option string),
    try_block env filename thresh min_len st = (r, mkSt (trace st ++ evs) o)
    /\ TryRun env filename thresh min_len r evs.
Proof.
  destruct st as [tr o].
  unfold try_block. unfold bind at 1, call at 1; cbn [trace out].
  destruct (VideoFileClip env (video_path env)) as [clip |] eqn:Hopen;
    [| do 3 eexists; split; [reflexivity | now apply RunOpenFails]].
  destruct (has_audio clip) eqn:Haudio; cbn [negb];
    [| do 3 eexists; split;
       [reflexivity | now apply (RunNoAudio _ _ _ _ clip)]].
  unfold bind at 1, call at 1; cbn [trace out].
  destruct (write_audiofile env clip (audio_path env)) eqn:Hwrite; cbn [ok];
    [| do 3 eexists; split;
       [rewrite <- app_assoc; reflexivity
       | now apply (RunWriteAudioFails _ _ _ _ clip)]].
  unfold bind at 1, call at 1; cbn [trace out].
  destruct (get_non_silent_chunks env (audio_path env) thresh min_len)
    as [[| c l] |] eqn:Hkeep.
  - do 3 eexists; split;
      [unfold ret; rewrite <- !app_assoc; reflexivity
      | now apply (RunNothingToKeep _ _ _ _ clip)].
  - set (st3 := mkSt _ o).
    destruct (for_each_extract env clip (c :: l) st3) as (evs & Hst & Hev).
    unfold bind at 1.
    destruct (for_each (extract env clip) (c :: l) st3) as [[subclips |] st4];
      cbn [snd] in Hst; subst st4; subst st3; cbn [trace out].
    + unfold bind at 1, call at 1; cbn [trace out].
      destruct (concatenate_videoclips env subclips) as [final |].
      * unfold bind at 1, set_out at 1; cbn [trace out].
        unfold bind at 1, call at 1; cbn [trace out].
        destruct (write_videofile env final (output_path env)); cbn [ok].
        -- exists (Some (SendFile (output_path env) ("processed_" ++ filename))).
           eexists. eexists. split.
           ++ unfold ret. rewrite <- !app_assoc. reflexivity.
           ++ rewrite app_assoc.
              apply (RunAssembly _ _ _ _ clip c l); try assumption;
                [right; reflexivity |].
              rewrite !forallb_app, Hev. reflexivity.
        -- exists None. eexists. eexists. split.
           ++ rewrite <- !app_assoc. reflexivity.
           ++ rewrite app_assoc.
              apply (RunAssembly _ _ _ _ clip c l); try assumption;
                [left; reflexivity |].
              rewrite !forallb_app, Hev. reflexivity.
      * exists None. eexists. eexists. split.
        -- rewrite <- !app_assoc. reflexivity.
        -- rewrite app_assoc.
           apply (RunAssembly _ _ _ _ clip c l); try assumption;
             [left; reflexivity |].
           rewrite !forallb_app, Hev. reflexivity.
    + exists None. eexists. eexists. split.
      * rewrite <- !app_assoc. reflexivity.
      * rewrite app_assoc.
        apply (RunAssembly _ _ _ _ clip c l); try assumption.
        left; reflexivity.
  - do 3 eexists; split;
      [rewrite <- !app_assoc; reflexivity
      | now apply (RunDetectFails _ _ _ _ clip)].
Qed.

(** ** The runs of the handler *)

Lemma process_video_run (env : Env) (req : Request) (filename : string)
    (p : pyfloat) :
  files_video req = Some filename ->
  threshold_percent env req = Some p ->
  exists (r : option Response) (evs : list Event) (o : option string),
    TryRun env filename (silence_thresh_db p) min_silence_len_ms r evs
    /\ process_video env req
       = (answer r, EvSave (video_path env) :: evs ++ removed env o).
Proof.
  intros Hfile Hp. unfold process_video. rewrite Hfile, Hp.
  destruct (try_block_run env filename (silence_thresh_db p)
              min_silence_len_ms (mkSt [EvSave (video_path env)] None))
    as (r & evs & o & Heq & Hrun).
  exists r, evs, o. split; [exact Hrun |].
  rewrite Heq. unfold finally, removed, answer; cbn [trace out].
  now rewrite <- app_assoc.
Qed.

Lemma assembly_not_detect (evs : list Event) (path : string)
    (thr : pyfloat) (ml : Z) :
  forallb is_assembly evs = true ->
  ~ In (EvGetNonSilentChunks path thr ml) evs.
Proof.
  intros Hall Hin.
  apply (proj1 (forallb_forall _ _) Hall) in Hin. discriminate.
Qed.

Lemma removed_not_detect (env : Env) (o : option string) (path : string)
    (thr : pyfloat) (ml : Z) :
  ~ In (EvGetNonSilentChunks path thr ml) (removed env o).
Proof.
  unfold removed. destruct o; simpl; intuition discriminate.
Qed.

Lemma removed_not_assembly (env : Env) (o : option string) :
  forallb (fun ev => negb (is_assembly ev)) (removed env o) = true.
Proof. destruct o; reflexivity. Qed.

(** The only call of [get_non_silent_chunks] in a run of the [try] block
    carries the block's own arguments. *)
Lemma TryRun_detect (env : Env) (filename : string) (thresh : pyfloat)
    (min_len : Z) (r : option Response) (evs : list Event)
    (path : string) (thr : pyfloat) (ml : Z) :
  TryRun env filename thresh min_len r evs ->
  In (EvGetNonSilentChunks path thr ml) evs ->
  path = audio_path env /\ thr = thresh /\ ml = min_len.
Proof.
  intros Hrun Hin.
  destruct Hrun; simpl in Hin;
    repeat match goal with
           | H : _ \/ _ |- _ => destruct H
           | H : False |- _ => contradiction
           | H : EvVideoFileClip _ = _ |- _ => discriminate H
           | H : EvWriteAudio _ = _ |- _ => discriminate H
           | H : EvGetNonSilentChunks _ _ _ = _ |- _ =>
               injection H as <- <- <-; auto
           end.
  all: exfalso; eapply assembly_not_detect; eassumption.
Qed.

Lemma detect_event_params (env : Env) (req : Request) (path : string)
    (thr : pyfloat) (ml : Z) :
  In (EvGetNonSilentChunks path thr ml) (snd (process_video env req)) ->
  exists (filename : string) (p : pyfloat),
    files_video req = Some filename /\
    threshold_percent env req = Some p /\
    path = audio_path env /\ thr = silence_thresh_db p /\
    ml = min_silence_len_ms.
Proof.
  intros Hin.
  destruct (files_video req) as [filename |] eqn:Hfile;
    [| unfold process_video in Hin; rewrite Hfile in Hin; contradiction].
  destruct (threshold_percent env req) as [p |] eqn:Hp;
    [| unfold process_video in Hin; rewrite Hfile, Hp in Hin; contradiction].
  destruct (process_video_run env req filename p Hfile Hp)
    as (r & evs & o & Hrun & Heq).
  rewrite Heq in Hin; cbn [snd] in Hin.
  destruct Hin as [Hin | Hin]; [discriminate |].
  apply in_app_or in Hin as [Hin | Hin];
    [| exfalso; eapply removed_not_detect; eassumption].
  exists filename, p. repeat split; try reflexivity;
    eapply TryRun_detect; eassumption.
Qed.

Lemma detect_event_reached (env : Env) (req : Request) (filename : string)
    (p : pyfloat) (video_clip : VideoClip) :
  files_video req = Some filename ->
  threshold_percent env req = Some p ->
  VideoFileClip env (video_path env) = Some video_clip ->
  has_audio video_clip = true ->
  write_audiofile env video_clip (audio_path env) = true ->
  In (EvGetNonSilentChunks (audio_path env) (silence_thresh_db p)
        min_silence_len_ms)
     (snd (process_video env req)).
Proof.
  intros Hfile Hp Hopen Haudio Hwrite.
  destruct (process_video_run env req filename p Hfile Hp)
    as (r & evs & o & Hrun & Heq).
  rewrite Heq; cbn [snd]. right. apply in_or_app. left.
  destruct Hrun; try congruence; simpl; auto.
Qed.

(** Every JSON error the handler can answer with. *)
Lemma json_answers (env : Env) (req : Request) (status : Z) (msg : string) :
  fst (process_video env req) = Json status msg ->
  (status = 400 /\ msg = "No video file provided"%string)
  \/ (status = 400
      /\ msg = "Video file does not contain an audio track."%string)
  \/ (status = 400 /\ msg = "No audio detected in the video"%string)
  \/ (status = 500
      /\ msg = "An internal error occurred during video processing."%string).
Proof.
  intros Hresp.
  destruct (files_video req) as [filename |] eqn:Hfile;
    [| unfold process_video in Hresp; rewrite Hfile in Hresp;
       injection Hresp as <- <-; auto].
  destruct (threshold_percent env req) as [p |] eqn:Hp;
    [| unfold process_video in Hresp; rewrite Hfile, Hp in Hresp;
       discriminate].
  destruct (process_video_run env req filename p Hfile Hp)
    as (r & evs & o & Hrun & Heq).
  rewrite Heq in Hresp; cbn [fst] in Hresp.
  destruct Hrun; cbn [answer] in Hresp;
    try (injection Hresp as <- <-; auto 6).
  match goal with H : _ \/ _ |- _ => destruct H; subst r end;
    cbn [answer] in Hresp; [injection Hresp as <- <-; auto 6 | discriminate].
Qed.

(** ** The threshold mapping *)

(** C5. For every sensitivity percent [p] the handler calls the detection
    with the threshold [-70 + p] and the minimum silence length 500 ms, and
    with nothing else; 30 gives -40, 10 gives -60 and 50 gives -20; equal
    percents give equal thresholds. *)
Theorem threshold_is_minus_70_plus_percent (env : Env) (req : Request)
    (p : pyfloat) :
  threshold_percent env req = Some p ->
  (forall (path : string) (thr : pyfloat) (ml : Z),
      In (EvGetNonSilentChunks path thr ml) (snd (process_video env req)) ->
      thr = (-70 + p)%Q /\ ml = 500)
  /\ (forall (filename : string) (video_clip : VideoClip),
         files_video req = Some filename ->
         VideoFileClip env (video_path env) = Some video_clip ->
         has_audio video_clip = true ->
         write_audiofile env video_clip (audio_path env) = true ->
         In (EvGetNonSilentChunks (audio_path env) (-70 + p)%Q 500)
            (snd (process_video env req)))
  /\ silence_thresh_db 30 = (-40)%Q
  /\ silence_thresh_db 10 = (-60)%Q
  /\ silence_thresh_db 50 = (-20)%Q
  /\ (forall q : pyfloat,
         (p == q)%Q -> (silence_thresh_db p == silence_thresh_db q)%Q)
  /\ min_silence_len_ms = 500.
Proof.
  intros Hp. split; [| split].
  - intros path thr ml Hin.
    apply detect_event_params in Hin
      as (filename & p' & _ & Hp' & _ & Hthr & Hml).
    rewrite Hp in Hp'. injection Hp' as <-. split; assumption.
  - intros filename video_clip Hfile Hopen Haudio Hwrite.
    exact (detect_event_reached env req filename p video_clip
             Hfile Hp Hopen Haudio Hwrite).
  - repeat split; try reflexivity.
    intros q Hq. unfold silence_thresh_db. now rewrite Hq.
Qed.

Lemma threshold_is_minus_70_plus_percent_witness :
  (forall (path : string) (thr : pyfloat) (ml : Z),
      In (EvGetNonSilentChunks path thr ml)
         (snd (process_video (world 10000 [(2000, 3000)])
                             (upload (Some "10"%string)))) ->
      thr = (-70 + 10)%Q /\ ml = 500)
  /\ (forall (filename : string) (video_clip : VideoClip),
         files_video (upload (Some "10"%string)) = Some filename ->
         VideoFileClip (world 10000 [(2000, 3000)])
                       (video_path (world 10000 [(2000, 3000)]))
         = Some video_clip ->
         has_audio video_clip = true ->
         write_audiofile (world 10000 [(2000, 3000)]) video_clip
                         (audio_path (world 10000 [(2000, 3000)])) = true ->
         In (EvGetNonSilentChunks (audio_path (world 10000 [(2000, 3000)]))
                                  (-70 + 10)%Q 500)
            (snd (process_video (world 10000 [(2000, 3000)])
                                (upload (Some "10"%string)))))
  /\ silence_thresh_db 30 = (-40)%Q
  /\ silence_thresh_db 10 = (-60)%Q
  /\ silence_thresh_db 50 = (-20)%Q
  /\ (forall q : pyfloat,
         (10 == q)%Q -> (silence_thresh_db 10 == silence_thresh_db q)%Q)
  /\ min_silence_len_ms = 500.
Proof.
  apply (threshold_is_minus_70_plus_percent
           (world 10000 [(2000, 3000)]) (upload (Some "10"%string)) 10).
  reflexivity.
Defined.

(** C2 as stated fails: a sensitivity of 90, outside 10-50, is not rejected;
    it is mapped to +20 dB, the detection runs with it and the request is
    answered with the processed file. *)
Lemma out_of_range_sensitivity_is_used :
  threshold_percent (world 10000 [(2000, 3000)]) (upload (Some "90"%string))
  = Some 90%Q
  /\ ~ (10 <= 90 /\ 90 <= 50)%Q
  /\ fst (process_video (world 10000 [(2000, 3000)])
                        (upload (Some "90"%string)))
     = SendFile "/tmp/out.mp4" "processed_talk.mp4"
  /\ is_rejection (fst (process_video (world 10000 [(2000, 3000)])
                                      (upload (Some "90"%string)))) = false
  /\ In (EvGetNonSilentChunks "/tmp/audio.wav" 20 500)
        (snd (process_video (world 10000 [(2000, 3000)])
                            (upload (Some "90"%string)))).
Proof.
  repeat split; try reflexivity.
  - intros [_ H]. now compute in H.
  - simpl. tauto.
Qed.

(** C2, amended: the sensitivity percent is neither clamped nor checked
    against 10-50.  Whatever number [p] the form value denotes, the
    detection is called with [-70 + p]; and the only JSON errors the handler
    answers with are the four of the source, none of them about the
    sensitivity. *)
Theorem sensitivity_is_mapped_without_check (env : Env) (req : Request)
    (p : pyfloat) :
  threshold_percent env req = Some p ->
  (forall (path : string) (thr : pyfloat) (ml : Z),
      In (EvGetNonSilentChunks path thr ml) (snd (process_video env req)) ->
      thr = (-70 + p)%Q)
  /\ (forall (filename : string) (video_clip : VideoClip),
         files_video req = Some filename ->
         VideoFileClip env (video_path env) = Some video_clip ->
         has_audio video_clip = true ->
         write_audiofile env video_clip (audio_path env) = true ->
         In (EvGetNonSilentChunks (audio_path env) (-70 + p)%Q 500)
            (snd (process_video env req)))
  /\ (forall (status : Z) (msg : string),
         fst (process_video env req) = Json status msg ->
         (status = 400 /\ msg = "No video file provided"%string)
         \/ (status = 400
             /\ msg = "Video file does not contain an audio track."%string)
         \/ (status = 400 /\ msg = "No audio detected in the video"%string)
         \/ (status = 500
             /\ msg
                = "An internal error occurred during video processing."%string)).
Proof.
  intros Hp. split; [| split].
  - intros path thr ml Hin.
    apply detect_event_params in Hin
      as (filename & p' & _ & Hp' & _ & Hthr & _).
    rewrite Hp in Hp'. injection Hp' as <-. exact Hthr.
  - intros filename video_clip Hfile Hopen Haudio Hwrite.
    exact (detect_event_reached env req filename p video_clip
             Hfile Hp Hopen Haudio Hwrite).
  - intros status msg. apply json_answers.
Qed.

Lemma sensitivity_is_mapped_without_check_witness :
  (forall (path : string) (thr : pyfloat) (ml : Z),
      In (EvGetNonSilentChunks path thr ml)
         (snd (process_video (world 10000 [(2000, 3000)])
                             (upload (Some "90"%string)))) ->
      thr = (-70 + 90)%Q)
  /\ (forall (filename : string) (video_clip : VideoClip),
         files_video (upload (Some "90"%string)) = Some filename ->
         VideoFileClip (world 10000 [(2000, 3000)])
                       (video_path (world 10000 [(2000, 3000)]))
         = Some video_clip ->
         has_audio video_clip = true ->
         write_audiofile (world 10000 [(2000, 3000)]) video_clip
                         (audio_path (world 10000 [(2000, 3000)])) = true ->
         In (EvGetNonSilentChunks (audio_path (world 10000 [(2000, 3000)]))
                                  (-70 + 90)%Q 500)
            (snd (process_video (world 10000 [(2000, 3000)])
                                (upload (Some "90"%string)))))
  /\ (forall (status : Z) (msg : string),
         fst (process_video (world 10000 [(2000, 3000)])
                            (upload (Some "90"%string))) = Json status msg ->
         (status = 400 /\ msg = "No video file provided"%string)
         \/ (status = 400
             /\ msg = "Video file does not contain an audio track."%string)
         \/ (status = 400 /\ msg = "No audio detected in the video"%string)
         \/ (status = 500
             /\ msg
                = "An internal error occurred during video processing."%string)).
Proof.
  apply (sensitivity_is_mapped_without_check
           (world 10000 [(2000, 3000)]) (upload (Some "90"%string)) 90).
  reflexivity.
Defined.

(** ** The empty keep list *)

(** C9. Whenever the keep list computed for a request is empty, the handler
    answers with the error "No audio detected in the video" (status 400) and
    makes no call of media assembly: no clip extraction, no concatenation,
    no encoding. *)
Theorem empty_keep_list_is_an_error (env : Env) (req : Request)
    (thr : pyfloat) (ml : Z) :
  In (EvGetNonSilentChunks (audio_path env) thr ml)
     (snd (process_video env req)) ->
  get_non_silent_chunks env (audio_path env) thr ml = Some [] ->
  fst (process_video env req) = Json 400 "No audio detected in the video"
  /\ forallb (fun ev => negb (is_assembly ev)) (snd (process_video env req))
     = true.
Proof.
  intros Hin Hempty.
  destruct (detect_event_params env req _ _ _ Hin)
    as (filename & p & Hfile & Hp & _ & -> & ->).
  destruct (process_video_run env req filename p Hfile Hp)
    as (r & evs & o & Hrun & Heq).
  rewrite Heq in *; cbn [fst snd] in *.
  destruct Hin as [Hin | Hin]; [discriminate |].
  apply in_app_or in Hin as [Hin | Hin];
    [| exfalso; eapply removed_not_detect; eassumption].
  destruct Hrun; try congruence;
    try (simpl in Hin; intuition discriminate).
  split; [reflexivity |].
  cbn [forallb is_assembly negb andb app].
  apply removed_not_assembly.
Qed.

Lemma empty_keep_list_is_an_error_witness :
  fst (process_video (world 5000 [(0, 5000)]) (upload None))
  = Json 400 "No audio detected in the video"
  /\ forallb (fun ev => negb (is_assembly ev))
             (snd (process_video (world 5000 [(0, 5000)]) (upload None)))
     = true.
Proof.
  apply (empty_keep_list_is_an_error (world 5000 [(0, 5000)]) (upload None)
           (-40) 500).
  - simpl. tauto.
  - reflexivity.
Defined.

(** ** The default sensitivity *)

(** C10. When the form has no 'threshold' field, the sensitivity percent is
    30 and the detection is called with -40 dB; the request is handled as if
    the field had been sent with a value denoting 30, and no exception leaves
    the handler. *)
Theorem missing_threshold_defaults_to_30 (env : Env) (req : Request) :
  form_threshold req = None ->
  threshold_percent env req = Some 30%Q
  /\ silence_thresh_db 30 = (-40)%Q
  /\ (forall (path : string) (thr : pyfloat) (ml : Z),
         In (EvGetNonSilentChunks path thr ml) (snd (process_video env req)) ->
         thr = (-40)%Q /\ ml = 500)
  /\ (forall (filename : string) (video_clip : VideoClip),
         files_video req = Some filename ->
         VideoFileClip env (video_path env) = Some video_clip ->
         has_audio video_clip = true ->
         write_audiofile env video_clip (audio_path env) = true ->
         In (EvGetNonSilentChunks (audio_path env) (-40)%Q 500)
            (snd (process_video env req)))
  /\ (forall s : string,
         float_of_str env s = Some 30%Q ->
         process_video env req
         = process_video env (mkRequest (files_video req) (Some s)))
  /\ fst (process_video env req) <> Uncaught.
Proof.
  intros Habsent.
  assert (Hp : threshold_percent env req = Some 30%Q)
    by (unfold threshold_percent; now rewrite Habsent).
  split; [exact Hp |]. split; [reflexivity |].
  split; [| split; [| split]].
  - intros path thr ml Hin.
    apply detect_event_params in Hin
      as (filename & p' & _ & Hp' & _ & Hthr & Hml).
    rewrite Hp in Hp'. injection Hp' as <-. split; assumption.
  - intros filename video_clip Hfile Hopen Haudio Hwrite.
    exact (detect_event_reached env req filename 30 video_clip
             Hfile Hp Hopen Haudio Hwrite).
  - intros s Hs. unfold process_video.
    rewrite Hp. unfold threshold_percent; cbn [form_threshold files_video].
    now rewrite Hs.
  - destruct (files_video req) as [filename |] eqn:Hfile.
    + destruct (process_video_run env req filename 30 Hfile Hp)
        as (r & evs & o & Hrun & Heq).
      rewrite Heq; cbn [fst].
      destruct Hrun; cbn [answer]; try discriminate.
      match goal with H : _ \/ _ |- _ => destruct H; subst r end;
        discriminate.
    + unfold process_video. rewrite Hfile. discriminate.
Qed.

Lemma missing_threshold_defaults_to_30_witness :
  threshold_percent (world 10000 [(2000, 3000)]) (upload None) = Some 30%Q
  /\ fst (process_video (world 10000 [(2000, 3000)]) (upload None))
     <> Uncaught.
Proof.
  pose proof (missing_threshold_defaults_to_30
                (world 10000 [(2000, 3000)]) (upload None) eq_refl)
    as (H1 & _ & _ & _ & _ & H6).
  split; [exact H1 | exact H6].
Defined.

(** * Further properties of [get_non_silent_chunks] *)

(** ** Size of the keep list *)

Lemma gaps_length (D : Z) (l : list (Z * Z)) :
  forall c : Z, (List.length (gaps_ms D c l) <= List.length l + 1)%nat.
Proof.
  induction l as [| [s e] r IH]; intros c; simpl.
  - destruct (c <? D); simpl; lia.
  - rewrite length_app. specialize (IH e).
    destruct (s >? c); simpl; lia.
Qed.

(** X1. Whatever silence list pydub reports, well formed or not, the keep
    list has at most one interval more than the silence list. *)
Theorem keep_list_length_bound (env : Env) (path : string)
    (thresh : pyfloat) (min_len : Z) (audio : AudioSegment) :
  from_file env path = Some audio ->
  exists keep : list chunk,
    get_non_silent_chunks env path thresh min_len = Some keep /\
    (List.length keep
     <= List.length (detect_silence env audio min_len thresh) + 1)%nat.
Proof.
  intros Hfile.
  rewrite (get_non_silent_chunks_decoded _ _ _ _ _ Hfile).
  eexists; split; [reflexivity |].
  destruct (detect_silence env audio min_len thresh) as [| a r].
  - simpl. lia.
  - rewrite non_silent_of_cons, length_map. apply gaps_length.
Qed.

Lemma keep_list_length_bound_witness :
  exists keep : list chunk,
    get_non_silent_chunks (world 10000 [(5000, 3000); (0, 10000); (1, 2)])
                          "/tmp/audio.wav" (-40) 500 = Some keep /\
    (List.length keep <= 3 + 1)%nat.
Proof.
  apply (keep_list_length_bound
           (world 10000 [(5000, 3000); (0, 10000); (1, 2)])
           "/tmp/audio.wav" (-40) 500 (mkAudio 10000)).
  reflexivity.
Defined.

(** ** Where the cuts fall *)

Lemma gaps_boundaries (D : Z) (l : list (Z * Z)) :
  forall c : Z,
    Forall (fun iv =>
              (fst iv = c \/ exists s e, In (s, e) l /\ fst iv = e) /\
              (snd iv = D \/ exists s e, In (s, e) l /\ snd iv = s))
           (gaps_ms D c l).
Proof.
  induction l as [| [s e] r IH]; intros c; simpl.
  - destruct (c <? D); [| constructor].
    constructor; [| constructor]. split; left; reflexivity.
  - apply Forall_app; split.
    + destruct (s >? c); [| constructor].
      constructor; [| constructor]. cbn [fst snd]. split; [now left |].
      right. exists s, e. auto.
    + eapply Forall_impl; [| apply (IH e)].
      intros iv [[Hs | (s' & e' & Hin & Hs)] He]; split.
      * right. exists s, e. auto.
      * destruct He as [He | (s2 & e2 & Hin2 & He)];
          [now left | right; exists s2, e2; auto].
      * right. exists s', e'. auto.
      * destruct He as [He | (s2 & e2 & Hin2 & He)];
          [now left | right; exists s2, e2; auto].
Qed.

(** X2. Whatever silence list pydub reports, every keep interval starts at 0
    or at the end of a reported silence interval, and ends at the start of a
    reported silence interval or at the end of the audio: the function cuts
    nowhere else. *)
Theorem keep_intervals_cut_at_silence_boundaries (env : Env) (path : string)
    (thresh : pyfloat) (min_len : Z) (audio : AudioSegment) :
  from_file env path = Some audio ->
  exists keep : list chunk,
    get_non_silent_chunks env path thresh min_len = Some keep /\
    Forall (fun iv : chunk =>
              ((fst iv == 0)%Q
               \/ exists s e : Z,
                    In (s, e) (detect_silence env audio min_len thresh)
                    /\ fst iv = to_sec e)
              /\ (snd iv = to_sec (audio_len audio)
                  \/ exists s e : Z,
                       In (s, e) (detect_silence env audio min_len thresh)
                       /\ snd iv = to_sec s))
           keep.
Proof.
  intros Hfile.
  rewrite (get_non_silent_chunks_decoded _ _ _ _ _ Hfile).
  eexists; split; [reflexivity |].
  destruct (detect_silence env audio min_len thresh) as [| a r].
  - simpl. constructor; [| constructor]. split; left; reflexivity.
  - rewrite non_silent_of_cons. apply Forall_map.
    eapply Forall_impl; [| apply gaps_boundaries].
    intros [s0 e0]; unfold sec; cbn [fst snd].
    intros [[Hs | (s & e & Hin & Hs)] He]; split.
    + left. subst s0. apply to_sec_0.
    + destruct He as [He | (s2 & e2 & Hin2 & He)]; subst e0;
        [now left | right; exists s2, e2; auto].
    + right. exists s, e. subst s0. auto.
    + destruct He as [He | (s2 & e2 & Hin2 & He)]; subst e0;
        [now left | right; exists s2, e2; auto].
Qed.

Lemma keep_intervals_cut_at_silence_boundaries_witness :
  exists keep : list chunk,
    get_non_silent_chunks (world 10000 [(2000, 3000); (6000, 6400)])
                          "/tmp/audio.wav" (-40) 500 = Some keep /\
    Forall (fun iv : chunk =>
              ((fst iv == 0)%Q
               \/ exists s e : Z,
                    In (s, e) [(2000, 3000); (6000, 6400)]
                    /\ fst iv = to_sec e)
              /\ (snd iv = to_sec 10000
                  \/ exists s e : Z,
                       In (s, e) [(2000, 3000); (6000, 6400)]
                       /\ snd iv = to_sec s))
           keep.
Proof.
  apply (keep_intervals_cut_at_silence_boundaries
           (world 10000 [(2000, 3000); (6000, 6400)])
           "/tmp/audio.wav" (-40) 500 (mkAudio 10000)).
  reflexivity.
Defined.

(** ** No empty clip, no touching clips *)



Lemma gaps_apart (D : Z) (l : list (Z * Z)) :
  forall c : Z, chain D c l -> StronglySorted apart_ms (gaps_ms D c l).
Proof.
  induction l as [| [s e] r IH]; intros c H; simpl in *.
  - destruct (c <? D); repeat constructor.
  - destruct H as (Hcs & Hse & Hr).
    destruct (Z.gtb_spec s c); simpl; [| now apply IH].
    constructor; [now apply IH |].
    eapply Forall_impl; [| apply gaps_bounds; exact Hr].
    unfold apart_ms; simpl; intros iv Hiv. lia.
Qed.

(** X4. For a well-formed silence list, two keep intervals never touch: the
    later one starts strictly after the earlier one ends, so each keep
    interval is a maximal stretch and no two could be merged. *)
Theorem keep_intervals_are_apart (env : Env) (path : string)
    (thresh : pyfloat) (min_len : Z) (audio : AudioSegment) :
  from_file env path = Some audio ->
  well_formed (audio_len audio) (detect_silence env audio min_len thresh)
  = true ->
  exists keep : list chunk,
    get_non_silent_chunks env path thresh min_len = Some keep /\
    StronglySorted apart keep.
Proof.
  intros Hfile Hwf.
  rewrite (get_non_silent_chunks_decoded _ _ _ _ _ Hfile).
  eexists; split; [reflexivity |].
  destruct (detect_silence env audio min_len thresh) as [| a r] eqn:E.
  - simpl. repeat constructor.
  - rewrite non_silent_of_cons.
    apply StronglySorted_map with (R := apart_ms).
    + intros x y Hxy. unfold apart, sec; cbn [fst snd].
      apply (proj1 (to_sec_lt _ _)). exact Hxy.
    + apply gaps_apart, well_formed_chain; [| exact Hwf].
      apply well_formed_nonneg in Hwf. lia.
Qed.

Lemma keep_intervals_are_apart_witness :
  exists keep : list chunk,
    get_non_silent_chunks (world 10000 [(2000, 3000); (3000, 3500); (6000, 6400)])
                          "/tmp/audio.wav" (-40) 500 = Some keep /\
    StronglySorted apart keep.
Proof.
  apply (keep_intervals_are_apart
           (world 10000 [(2000, 3000); (3000, 3500); (6000, 6400)])
           "/tmp/audio.wav" (-40) 500 (mkAudio 10000)).
  - reflexivity.
  - reflexivity.
Defined.

(** ** Durations *)

Lemma to_sec_add (a b : Z) : (to_sec (a + b) == to_sec a + to_sec b)%Q.
Proof. unfold to_sec, Qeq, Qplus; cbn [Qnum Qden]. lia. Qed.

Lemma to_sec_sub (a b : Z) : (to_sec (a - b) == to_sec a - to_sec b)%Q.
Proof. unfold to_sec, Qeq, Qminus, Qplus, Qopp; cbn [Qnum Qden]. lia. Qed.

Lemma total_sec (l : list (Z * Z)) :
  (total (map sec l) == to_sec (total_ms l))%Q.
Proof.
  induction l as [| [s e] r IH]; simpl.
  - reflexivity.
  - rewrite IH, to_sec_add, to_sec_sub. reflexivity.
Qed.

Lemma gaps_total (D : Z) (l : list (Z * Z)) :
  forall c : Z,
    chain D c l -> total_ms (gaps_ms D c l) + total_ms l = D - c.
Proof.
  induction l as [| [s e] r IH]; intros c H; simpl in *.
  - destruct (Z.ltb_spec c D); simpl; lia.
  - destruct H as (Hcs & Hse & Hr). specialize (IH e Hr).
    destruct (Z.gtb_spec s c); simpl; lia.
Qed.

(** X5. For a well-formed silence list, the durations of the keep intervals
    and of the silence intervals add up to the duration of the audio: what is
    kept is exactly the audio minus the silence. *)
Theorem kept_plus_silence_is_total_duration (env : Env) (path : string)
    (thresh : pyfloat) (min_len : Z) (audio : AudioSegment) :
  from_file env path = Some audio ->
  0 <= audio_len audio ->
  well_formed (audio_len audio) (detect_silence env audio min_len thresh)
  = true ->
  exists keep : list chunk,
    get_non_silent_chunks env path thresh min_len = Some keep /\
    (total keep + total (silence_sec (detect_silence env audio min_len thresh))
     == to_sec (audio_len audio))%Q.
Proof.
  intros Hfile HD Hwf.
  rewrite (get_non_silent_chunks_decoded _ _ _ _ _ Hfile).
  eexists; split; [reflexivity |].
  destruct (detect_silence env audio min_len thresh) as [| a r] eqn:E.
  - simpl. ring.
  - rewrite non_silent_of_cons. unfold silence_sec. rewrite !total_sec.
    rewrite <- to_sec_add.
    rewrite (gaps_total (audio_len audio) (a :: r) 0)
      by (apply well_formed_chain; assumption).
    now rewrite Z.sub_0_r.
Qed.

Lemma kept_plus_silence_is_total_duration_witness :
  exists keep : list chunk,
    get_non_silent_chunks (world 10000 [(2000, 3000); (6000, 6400)])
                          "/tmp/audio.wav" (-40) 500 = Some keep /\
    (total keep
     + total (silence_sec [(2000%Z, 3000%Z); (6000%Z, 6400%Z)])
     == to_sec 10000)%Q.
Proof.
  apply (kept_plus_silence_is_total_duration
           (world 10000 [(2000, 3000); (6000, 6400)])
           "/tmp/audio.wav" (-40) 500 (mkAudio 10000)).
  - reflexivity.
  - simpl. lia.
  - reflexivity.
Defined.

Lemma positive_total_nil (D c : Z) (l : list (Z * Z)) :
  Forall (fun iv => c <= fst iv /\ fst iv < snd iv /\ snd iv <= D) l ->
  total_ms l = 0 -> l = [].
Proof.
  intros Hall Htot. destruct l as [| [s e] r]; [reflexivity | exfalso].
  assert (Hpos : forall l', Forall (fun iv : Z * Z =>
                                      c <= fst iv /\ fst iv < snd iv
                                      /\ snd iv <= D) l' ->
                            0 <= total_ms l').
  { induction 1 as [| x l' Hx _ IH]; simpl; lia. }
  inversion Hall as [| x l' Hx Hr]; subst.
  apply Hpos in Hr. simpl in Htot, Hx. lia.
Qed.

(** X6. For an audio track of positive length and a well-formed silence
    list, the keep list is empty exactly when the silence intervals add up
    to the whole duration of the audio. *)
Theorem nothing_kept_iff_all_silent (env : Env) (path : string)
    (thresh : pyfloat) (min_len : Z) (audio : AudioSegment) :
  from_file env path = Some audio ->
  0 < audio_len audio ->
  well_formed (audio_len audio) (detect_silence env audio min_len thresh)
  = true ->
  (get_non_silent_chunks env path thresh min_len = Some []
   <-> total_ms (detect_silence env audio min_len thresh) = audio_len audio).
Proof.
  intros Hfile HD Hwf.
  rewrite (get_non_silent_chunks_decoded _ _ _ _ _ Hfile).
  destruct (detect_silence env audio min_len thresh) as [| a r] eqn:E.
  - simpl. split; [discriminate | lia].
  - rewrite non_silent_of_cons.
    assert (Hchain : chain (audio_len audio) 0 (a :: r))
      by (apply well_formed_chain; [lia | exact Hwf]).
    pose proof (gaps_total _ _ _ Hchain) as Htot.
    pose proof (gaps_bounds _ _ _ Hchain) as Hbounds.
    split.
    + intros Hnil. injection Hnil as Hnil. apply map_eq_nil in Hnil.
      change (gaps_ms (audio_len audio) 0 (a :: r) = []) in Hnil.
      rewrite Hnil in Htot. simpl in Htot. simpl. lia.
    + intros Hall.
      rewrite (positive_total_nil _ _ _ Hbounds); [reflexivity | lia].
Qed.

Lemma nothing_kept_iff_all_silent_witness :
  get_non_silent_chunks (world 10000 [(0, 4000); (4000, 10000)])
                        "/tmp/audio.wav" (-40) 500 = Some []
  <-> total_ms [(0, 4000); (4000, 10000)] = 10000.
Proof.
  apply (nothing_kept_iff_all_silent
           (world 10000 [(0, 4000); (4000, 10000)])
           "/tmp/audio.wav" (-40) 500 (mkAudio 10000)).
  - reflexivity.
  - simpl. lia.
  - reflexivity.
Defined.

(** ** Inverting twice *)

Lemma gaps_of_gaps_from (D : Z) (r : list (Z * Z)) :
  forall s e : Z,
    s < e -> apart_chain D e r ->
    gaps_ms D s (gaps_ms D e r) = (s, e) :: r.
Proof.
  induction r as [| [s' e'] r IH]; intros s e Hse H; simpl in H.
  - cbn [gaps_ms]. destruct (Z.ltb_spec e D).
    + cbn [gaps_ms app]. destruct (Z.gtb_spec e s); [| lia].
      now rewrite Z.ltb_irrefl.
    + assert (e = D) as -> by lia. cbn [gaps_ms].
      destruct (Z.ltb_spec s D); [reflexivity | lia].
  - destruct H as (Hes & Hse' & Hr).
    cbn [gaps_ms]. destruct (Z.gtb_spec s' e); [| lia].
    cbn [app gaps_ms]. destruct (Z.gtb_spec e s); [| lia].
    cbn [app]. now rewrite (IH s' e' Hse' Hr).
Qed.

Lemma apart_chain_of_parts (D : Z) (r : list (Z * Z)) :
  forall a : Z * Z,
    forallb (interval_in D) (a :: r) = true ->
    separated (a :: r) = true ->
    apart_chain D (snd a) r.
Proof.
  induction r as [| [s' e'] r IH]; intros [s e] Hin Hsep.
  - simpl in Hin. rewrite andb_true_r in Hin. unfold interval_in in Hin.
    apply andb_true_iff in Hin as [_ He]. now apply Z.leb_le in He.
  - cbn [forallb] in Hin. apply andb_true_iff in Hin as [_ Hin].
    cbn [separated] in Hsep. apply andb_true_iff in Hsep as [Hlt Hsep].
    apply Z.ltb_lt in Hlt. cbn [fst snd] in *.
    specialize (IH (s', e') Hin Hsep). cbn [snd] in IH.
    cbn [forallb] in Hin. apply andb_true_iff in Hin as [Ha _].
    unfold interval_in in Ha; cbn [fst snd] in Ha.
    apply andb_true_iff in Ha as [Ha _]. apply andb_true_iff in Ha as [_ Ha].
    apply Z.ltb_lt in Ha.
    cbn [apart_chain]. auto.
Qed.

Lemma gaps_involutive (D : Z) (l : list (Z * Z)) :
  forallb (interval_in D) l = true ->
  separated l = true ->
  gaps_ms D 0 (gaps_ms D 0 l) = l.
Proof.
  intros Hin Hsep. destruct l as [| [s e] r].
  - cbn [gaps_ms]. destruct (Z.ltb_spec 0 D); cbn [gaps_ms app].
    + now rewrite Z.ltb_irrefl.
    + destruct (Z.ltb_spec 0 D); [lia | reflexivity].
  - pose proof (apart_chain_of_parts D r (s, e) Hin Hsep) as Hr.
    cbn [snd] in Hr.
    cbn [forallb] in Hin. apply andb_true_iff in Hin as [Ha _].
    unfold interval_in in Ha; cbn [fst snd] in Ha.
    apply andb_true_iff in Ha as [Ha _]. apply andb_true_iff in Ha as [H0 Hse].
    apply Z.leb_le in H0. apply Z.ltb_lt in Hse.
    cbn [gaps_ms]. destruct (Z.gtb_spec s 0).
    + cbn [app gaps_ms]. rewrite Z.gtb_ltb, Z.ltb_irrefl. cbn [app].
      now apply gaps_of_gaps_from.
    + assert (s = 0) as -> by lia. cbn [app].
      now apply gaps_of_gaps_from.
Qed.

Lemma same_chunks_refl (l : list chunk) : Forall2 same_chunk l l.
Proof.
  induction l as [| a l IH]; constructor; [| exact IH].
  split; reflexivity.
Qed.

(** X7. Inverting twice gives the silence list back.  For an audio track of
    positive length and a well-formed silence list whose intervals do not
    touch, the keep list is (in milliseconds) a list of intervals that the
    same inversion turns back into the silence list. *)
Theorem inverting_twice_gives_silence_back (audio : AudioSegment)
    (silence_chunks : list (Z * Z)) :
  0 < audio_len audio ->
  well_formed (audio_len audio) silence_chunks = true ->
  separated silence_chunks = true ->
  exists keep_ms : list (Z * Z),
    Forall2 same_chunk (non_silent_of audio silence_chunks) (map sec keep_ms)
    /\ Forall2 same_chunk (non_silent_of audio keep_ms)
                          (map sec silence_chunks).
Proof.
  intros HD Hwf Hsep.
  unfold well_formed in Hwf. apply andb_true_iff in Hwf as [Hin _].
  pose proof (gaps_involutive _ _ Hin Hsep) as Hinv.
  destruct silence_chunks as [| a r].
  - exists [(0, audio_len audio)]. split.
    + simpl. constructor; [| constructor]. split; reflexivity.
    + rewrite non_silent_of_cons. cbn [gaps_ms app].
      rewrite Z.gtb_ltb, !Z.ltb_irrefl. constructor.
  - exists (gaps_ms (audio_len audio) 0 (a :: r)). split.
    + rewrite non_silent_of_cons. apply same_chunks_refl.
    + destruct (gaps_ms (audio_len audio) 0 (a :: r)) as [| k ks].
      * cbn [gaps_ms] in Hinv.
        destruct (Z.ltb_spec 0 (audio_len audio)); [| lia].
        rewrite <- Hinv. simpl.
        constructor; [| constructor]. split; reflexivity.
      * rewrite non_silent_of_cons, Hinv. apply same_chunks_refl.
Qed.

Lemma inverting_twice_gives_silence_back_witness :
  exists keep_ms : list (Z * Z),
    Forall2 same_chunk
      (non_silent_of (mkAudio 10000) [(2000, 3000); (6000, 6400)])
      (map sec keep_ms)
    /\ Forall2 same_chunk (non_silent_of (mkAudio 10000) keep_ms)
                          (map sec [(2000, 3000); (6000, 6400)]).
Proof.
  apply (inverting_twice_gives_silence_back
           (mkAudio 10000) [(2000, 3000); (6000, 6400)]).
  - simpl. lia.
  - reflexivity.
  - reflexivity.
Defined.

(** * Further properties of [process_video] *)

(** ** The runs of the handler, call by call *)

Lemma extract_run (env : Env) (video_clip : VideoClip) (c : chunk) (st : St) :
  extract env video_clip c st
  = (subclip env video_clip (fst c) (snd c),
     mkSt (trace st ++ [subclip_event c]) (out st)).
Proof. destruct c as [s e]. reflexivity. Qed.

(** The list comprehension of line 85 either extracts every keep interval,
    in order, or stops at the first one [subclip] raises on. *)
Lemma for_each_extract_full (env : Env) (video_clip : VideoClip)
    (l : list chunk) :
  forall st : St,
    (exists subclips : list VideoClip,
        for_each (extract env video_clip) l st
        = (Some subclips, mkSt (trace st ++ map subclip_event l) (out st))
        /\ Forall2 (extracted env video_clip) l subclips)
    \/ (exists (done rest : list chunk) (c : chunk),
           l = done ++ c :: rest
           /\ Forall (fun d => subclip env video_clip (fst d) (snd d) <> None)
                     done
           /\ subclip env video_clip (fst c) (snd c) = None
           /\ for_each (extract env video_clip) l st
              = (None,
                 mkSt (trace st ++ map subclip_event (done ++ [c])) (out st))).
Proof.
  induction l as [| c r IH]; intros st; cbn [for_each].
  - left. exists []. split; [| constructor].
    unfold ret. cbn [map]. rewrite app_nil_r. now destruct st.
  - destruct (subclip env video_clip (fst c) (snd c)) as [v |] eqn:Hc.
    + destruct (IH (mkSt (trace st ++ [subclip_event c]) (out st)))
        as [(vs & Heq & Hall) | (done & rest & c' & Hl & Hdone & Hc' & Heq)];
        cbn [trace out] in Heq.
      * left. exists (v :: vs). split; [| constructor; assumption].
        unfold bind at 1. rewrite extract_run, Hc.
        unfold bind. rewrite Heq. unfold ret. cbn [map].
        now rewrite <- app_assoc.
      * right. exists (c :: done), rest, c'.
        split; [now rewrite Hl |].
        split; [constructor; [congruence | exact Hdone] |].
        split; [exact Hc' |].
        unfold bind at 1. rewrite extract_run, Hc.
        unfold bind. rewrite Heq. cbn [map app].
        now rewrite <- app_assoc.
    + right. exists [], r, c.
      split; [reflexivity |]. split; [constructor |].
      split; [exact Hc |].
      unfold bind at 1. rewrite extract_run, Hc. reflexivity.
Qed.

Lemma try_block_full (env : Env) (filename : string) (thresh : pyfloat)
    (min_len : Z) (tr : list Event) :
  exists (r : option Response) (evs : list Event) (o : option string),
    try_block env filename thresh min_len (mkSt tr None)
    = (r, mkSt (tr ++ evs) o)
    /\ FullRun env filename thresh min_len r evs o.
Proof.
  unfold try_block. unfold bind at 1, call at 1; cbn [trace out].
  destruct (VideoFileClip env (video_path env)) as [clip |] eqn:Hopen;
    [| do 3 eexists; split; [reflexivity | now apply FullOpenFails]].
  destruct (has_audio clip) eqn:Haudio; cbn [negb];
    [| do 3 eexists; split;
       [reflexivity | now apply (FullNoAudio _ _ _ _ clip)]].
  unfold bind at 1, call at 1; cbn [trace out].
  destruct (write_audiofile env clip (audio_path env)) eqn:Hwrite; cbn [ok];
    [| do 3 eexists; split;
       [rewrite <- app_assoc; reflexivity
       | now apply (FullWriteAudioFails _ _ _ _ clip)]].
  unfold bind at 1, call at 1; cbn [trace out].
  destruct (get_non_silent_chunks env (audio_path env) thresh min_len)
    as [[| c l] |] eqn:Hkeep.
  - do 3 eexists; split;
      [unfold ret; rewrite <- !app_assoc; reflexivity
      | now apply (FullNothingToKeep _ _ _ _ clip)].
  - set (st3 := mkSt _ None).
    unfold bind at 1.
    destruct (for_each_extract_full env clip (c :: l) st3)
      as [(vs & Heq & Hall) | (done & rest & c' & Hl & Hdone & Hc' & Heq)];
      rewrite Heq; subst st3; cbn [trace out].
    + unfold bind at 1, call at 1; cbn [trace out].
      destruct (concatenate_videoclips env vs) as [final |] eqn:Hcat.
      * unfold bind at 1, set_out at 1; cbn [trace out].
        unfold bind at 1, call at 1; cbn [trace out].
        destruct (write_videofile env final (output_path env)) eqn:Hout;
          cbn [ok].
        -- do 3 eexists. split.
           ++ unfold ret. rewrite <- !app_assoc. reflexivity.
           ++ apply (FullSuccess _ _ _ _ clip (c :: l) vs final);
                try assumption. discriminate.
        -- do 3 eexists. split.
           ++ rewrite <- !app_assoc. reflexivity.
           ++ apply (FullWriteVideoFails _ _ _ _ clip (c :: l) vs final);
                try assumption. discriminate.
      * do 3 eexists. split.
        -- rewrite <- !app_assoc. reflexivity.
        -- apply (FullConcatenateFails _ _ _ _ clip (c :: l) vs);
             try assumption. discriminate.
    + do 3 eexists. split.
      * rewrite <- !app_assoc. reflexivity.
      * rewrite Hl in Hkeep.
        now apply (FullSubclipFails _ _ _ _ clip done rest c').
  - do 3 eexists; split;
      [rewrite <- !app_assoc; reflexivity
      | now apply (FullDetectFails _ _ _ _ clip)].
Qed.

Lemma process_video_full (env : Env) (req : Request) (filename : string)
    (p : pyfloat) :
  files_video req = Some filename ->
  threshold_percent env req = Some p ->
  exists (r : option Response) (evs : list Event) (o : option string),
    FullRun env filename (silence_thresh_db p) min_silence_len_ms r evs o
    /\ process_video env req
       = (answer r, EvSave (video_path env) :: evs ++ removed env o).
Proof.
  intros Hfile Hp. unfold process_video. rewrite Hfile, Hp.
  destruct (try_block_full env filename (silence_thresh_db p)
              min_silence_len_ms [EvSave (video_path env)])
    as (r & evs & o & Heq & Hrun).
  exists r, evs, o. split; [exact Hrun |].
  rewrite Heq. unfold finally, removed, answer; cbn [trace out].
  now rewrite <- app_assoc.
Qed.



(** ** Requests turned away before any work *)

(** X8. The handler answers "No video file provided" exactly when the
    request has no 'video' file, and then it has called nothing: no
    temporary file is created and there is nothing to clean up. *)
Theorem no_video_file_iff_rejected_at_once (env : Env) (req : Request) :
  (files_video req = None
   <-> fst (process_video env req) = Json 400 "No video file provided")
  /\ (files_video req = None -> snd (process_video env req) = []).
Proof.
  split; [split |]; intros H.
  - unfold process_video. now rewrite H.
  - destruct (files_video req) as [filename |] eqn:Hfile; [| reflexivity].
    exfalso.
    destruct (threshold_percent env req) as [p |] eqn:Hp;
      [| unfold process_video in H; rewrite Hfile, Hp in H; discriminate].
    destruct (process_video_full env req filename p Hfile Hp)
      as (r & evs & o & Hrun & Heq).
    rewrite Heq in H; cbn [fst] in H.
    destruct Hrun; cbn [answer] in H; discriminate.
  - unfold process_video. now rewrite H.
Qed.


(** ** Cleaning up *)





(** ** The successful run *)

(** X11. When the handler sends a file, it is the output file under the
    name "processed_" followed by the uploaded file's name, and the run was
    exactly this: save, open, extract the audio, detect, one [subclip] call
    per keep interval in the order of the keep list, one concatenation of
    the clips obtained, one encoding, then the three removals. *)
Theorem sent_file_is_made_of_the_keep_intervals (env : Env) (req : Request)
    (path name : string) :
  fst (process_video env req) = SendFile path name ->
  exists (filename : string) (p : pyfloat) (video_clip : VideoClip)
         (keep : list chunk) (subclips : list VideoClip)
         (final_clip : VideoClip),
    files_video req = Some filename
    /\ threshold_percent env req = Some p
    /\ path = output_path env
    /\ name = ("processed_" ++ filename)%string
    /\ VideoFileClip env (video_path env) = Some video_clip
    /\ get_non_silent_chunks env (audio_path env) (silence_thresh_db p)
                             min_silence_len_ms = Some keep
    /\ keep <> []
    /\ Forall2 (extracted env video_clip) keep subclips
    /\ concatenate_videoclips env subclips = Some final_clip
    /\ write_videofile env final_clip (output_path env) = true
    /\ snd (process_video env req)
       = [EvSave (video_path env); EvVideoFileClip (video_path env);
          EvWriteAudio (audio_path env);
          EvGetNonSilentChunks (audio_path env) (silence_thresh_db p)
                               min_silence_len_ms]
         ++ map subclip_event keep
         ++ [EvConcatenate subclips; EvWriteVideo (output_path env);
             EvRemove (video_path env); EvRemove (audio_path env);
             EvRemove (output_path env)].
Proof.
  intros Hsent.
  destruct (files_video req) as [filename |] eqn:Hfile;
    [| unfold process_video in Hsent; rewrite Hfile in Hsent; discriminate].
  destruct (threshold_percent env req) as [p |] eqn:Hp;
    [| unfold process_video in Hsent; rewrite Hfile, Hp in Hsent;
       discriminate].
  destruct (process_video_full env req filename p Hfile Hp)
    as (r & evs & o & Hrun & Heq).
  rewrite Heq in *; cbn [fst snd] in *.
  destruct Hrun; cbn [answer] in Hsent; try discriminate.
  injection Hsent as <- <-.
  exists filename, p, video_clip, keep, subclips, final_clip.
  repeat (split; [first [reflexivity | assumption] |]).
  unfold opening, removed. cbn [app]. rewrite <- !app_assoc. reflexivity.
Qed.

Lemma sent_file_is_made_of_the_keep_intervals_witness :
  exists (filename : string) (p : pyfloat) (video_clip : VideoClip)
         (keep : list chunk) (subclips : list VideoClip)
         (final_clip : VideoClip),
    files_video (upload None) = Some filename
    /\ threshold_percent (world 10000 [(2000, 3000)]) (upload None) = Some p
    /\ "/tmp/out.mp4"%string = output_path (world 10000 [(2000, 3000)])
    /\ "processed_talk.mp4"%string = ("processed_" ++ filename)%string
    /\ VideoFileClip (world 10000 [(2000, 3000)])
                     (video_path (world 10000 [(2000, 3000)]))
       = Some video_clip
    /\ get_non_silent_chunks (world 10000 [(2000, 3000)])
         (audio_path (world 10000 [(2000, 3000)])) (silence_thresh_db p)
         min_silence_len_ms = Some keep
    /\ keep <> []
    /\ Forall2 (extracted (world 10000 [(2000, 3000)]) video_clip)
               keep subclips
    /\ concatenate_videoclips (world 10000 [(2000, 3000)]) subclips
       = Some final_clip
    /\ write_videofile (world 10000 [(2000, 3000)]) final_clip
                       (output_path (world 10000 [(2000, 3000)])) = true
    /\ snd (process_video (world 10000 [(2000, 3000)]) (upload None))
       = [EvSave (video_path (world 10000 [(2000, 3000)]));
          EvVideoFileClip (video_path (world 10000 [(2000, 3000)]));
          EvWriteAudio (audio_path (world 10000 [(2000, 3000)]));
          EvGetNonSilentChunks (audio_path (world 10000 [(2000, 3000)]))
                               (silence_thresh_db p) min_silence_len_ms]
         ++ map subclip_event keep
         ++ [EvConcatenate subclips;
             EvWriteVideo (output_path (world 10000 [(2000, 3000)]));
             EvRemove (video_path (world 10000 [(2000, 3000)]));
             EvRemove (audio_path (world 10000 [(2000, 3000)]));
             EvRemove (output_path (world 10000 [(2000, 3000)]))].
Proof.
  apply (sent_file_is_made_of_the_keep_intervals
           (world 10000 [(2000, 3000)]) (upload None)
           "/tmp/out.mp4" "processed_talk.mp4").
  reflexivity.
Defined.

(** X12. When the request has a video file with an audio track and a
    threshold [float] accepts, the keep list is not empty and no
    collaborator raises, the handler sends the output file under the name
    "processed_" followed by the uploaded file's name. *)
Theorem handler_sends_the_file_when_nothing_fails (env : Env) (req : Request)
    (filename : string) (p : pyfloat) (video_clip : VideoClip)
    (keep : list chunk) :
  files_video req = Some filename ->
  threshold_percent env req = Some p ->
  VideoFileClip env (video_path env) = Some video_clip ->
  has_audio video_clip = true ->
  write_audiofile env video_clip (audio_path env) = true ->
  get_non_silent_chunks env (audio_path env) (silence_thresh_db p)
                        min_silence_len_ms = Some keep ->
  keep <> [] ->
  (forall c : chunk,
      In c keep -> subclip env video_clip (fst c) (snd c) <> None) ->
  (forall subclips : list VideoClip,
      Forall2 (extracted env video_clip) keep subclips ->
      exists final_clip : VideoClip,
        concatenate_videoclips env subclips = Some final_clip
        /\ write_videofile env final_clip (output_path env) = true) ->
  fst (process_video env req)
  = SendFile (output_path env) ("processed_" ++ filename).
Proof.
  intros Hfile Hp Hopen Haudio Hwrite Hkeep Hne Hsub Hout.
  destruct (process_video_full env req filename p Hfile Hp)
    as (r & evs & o & Hrun & Heq).
  rewrite Heq; cbn [fst].
  assert (Hclip : forall v, VideoFileClip env (video_path env) = Some v ->
                            v = video_clip) by (intros; congruence).
  assert (Hlist : forall k, get_non_silent_chunks env (audio_path env)
                              (silence_thresh_db p) min_silence_len_ms
                            = Some k -> k = keep) by (intros; congruence).
  destruct Hrun; try congruence;
    repeat match goal with
           | H : VideoFileClip _ _ = Some _ |- _ => apply Hclip in H; subst
           | H : get_non_silent_chunks _ _ _ _ = Some _ |- _ =>
               apply Hlist in H; subst
           end.
  - exfalso. eapply Hsub; [| eassumption]. apply in_or_app; right; now left.
  - destruct (Hout subclips) as (final & Hcat & _); [assumption | congruence].
  - destruct (Hout subclips) as (final & Hcat & Hw); [assumption |].
    congruence.
  - reflexivity.
Qed.

Lemma handler_sends_the_file_when_nothing_fails_witness :
  fst (process_video (world 10000 [(2000, 3000)]) (upload (Some "25"%string)))
  = SendFile (output_path (world 10000 [(2000, 3000)]))
             ("processed_" ++ "talk.mp4").
Proof.
  apply (handler_sends_the_file_when_nothing_fails
           (world 10000 [(2000, 3000)]) (upload (Some "25"%string))
           "talk.mp4" 25 (mkClip "/tmp/in.mp4" true)
           [(to_sec 0, to_sec 2000); (to_sec 3000, to_sec 10000)]).
  - reflexivity.
  - reflexivity.
  - reflexivity.
  - reflexivity.
  - reflexivity.
  - reflexivity.
  - discriminate.
  - intros c _. discriminate.
  - intros subclips H.
    inversion H as [| c1 v1 l1 vs1 H1 Hrest]; subst.
    exists v1. split; reflexivity.
Defined.

(** ** The error answers *)



Example scenario_encoding_fails :
  process_video (world_encoding_fails 10000 [(2000, 3000)]) (upload None)
  = (Json 500 "An internal error occurred during video processing.",
     [EvSave "/tmp/in.mp4"; EvVideoFileClip "/tmp/in.mp4";
      EvWriteAudio "/tmp/audio.wav";
      EvGetNonSilentChunks "/tmp/audio.wav" (-40) 500;
      EvSubclip (to_sec 0) (to_sec 2000);
      EvSubclip (to_sec 3000) (to_sec 10000);
      EvConcatenate [mkClip "/tmp/in.mp4" true; mkClip "/tmp/in.mp4" true];
      EvWriteVideo "/tmp/out.mp4";
      EvRemove "/tmp/in.mp4"; EvRemove "/tmp/audio.wav";
      EvRemove "/tmp/out.mp4"]).
Proof. reflexivity. Qed.

(** X14. For a request with a video file and a threshold [float] accepts,
    the handler answers "Video file does not contain an audio track."
    exactly when the clip opens and has no audio; it has then extracted no
    audio and run no detection: it only saved and opened the upload and
    removed the two temporary files. *)
Theorem no_audio_track_iff_rejected (env : Env) (req : Request)
    (filename : string) (p : pyfloat) :
  files_video req = Some filename ->
  threshold_percent env req = Some p ->
  (fst (process_video env req)
   = Json 400 "Video file does not contain an audio track."
   <-> exists video_clip : VideoClip,
         VideoFileClip env (video_path env) = Some video_clip
         /\ has_audio video_clip = false)
  /\ (fst (process_video env req)
      = Json 400 "Video file does not contain an audio track." ->
      snd (process_video env req)
      = [EvSave (video_path env); EvVideoFileClip (video_path env);
         EvRemove (video_path env); EvRemove (audio_path env)]).
Proof.
  intros Hfile Hp.
  destruct (process_video_full env req filename p Hfile Hp)
    as (r & evs & o & Hrun & Heq).
  rewrite Heq; cbn [fst snd].
  split; [split |].
  - intros Hans. destruct Hrun; cbn [answer] in Hans; try discriminate.
    exists video_clip. auto.
  - intros (clip & Hopen & Haudio).
    destruct Hrun; cbn [answer]; try reflexivity; congruence.
  - intros Hans. destruct Hrun; cbn [answer] in Hans; try discriminate.
    reflexivity.
Qed.

Lemma no_audio_track_iff_rejected_witness :
  (fst (process_video world_without_audio (upload None))
   = Json 400 "Video file does not contain an audio track."
   <-> exists video_clip : VideoClip,
         VideoFileClip world_without_audio (video_path world_without_audio)
         = Some video_clip
         /\ has_audio video_clip = false)
  /\ (fst (process_video world_without_audio (upload None))
      = Json 400 "Video file does not contain an audio track." ->
      snd (process_video world_without_audio (upload None))
      = [EvSave (video_path world_without_audio);
         EvVideoFileClip (video_path world_without_audio);
         EvRemove (video_path world_without_audio);
         EvRemove (audio_path world_without_audio)]).
Proof.
  apply (no_audio_track_iff_rejected world_without_audio (upload None)
           "talk.mp4" 30).
  - reflexivity.
  - reflexivity.
Defined.

(** X15. For a request with a video file and a threshold [float] accepts,
    the handler answers "No audio detected in the video" exactly when the
    clip opens with an audio track, the audio is extracted and
    [get_non_silent_chunks] returns the empty list. *)
Theorem no_audio_detected_iff_keep_list_empty (env : Env) (req : Request)
    (filename : string) (p : pyfloat) :
  files_video req = Some filename ->
  threshold_percent env req = Some p ->
  (fst (process_video env req) = Json 400 "No audio detected in the video"
   <-> exists video_clip : VideoClip,
         VideoFileClip env (video_path env) = Some video_clip
         /\ has_audio video_clip = true
         /\ write_audiofile env video_clip (audio_path env) = true
         /\ get_non_silent_chunks env (audio_path env) (silence_thresh_db p)
                                  min_silence_len_ms = Some []).
Proof.
  intros Hfile Hp.
  destruct (process_video_full env req filename p Hfile Hp)
    as (r & evs & o & Hrun & Heq).
  rewrite Heq; cbn [fst].
  split.
  - intros Hans. destruct Hrun; cbn [answer] in Hans; try discriminate.
    exists video_clip. auto.
  - intros (clip & Hopen & Haudio & Hwrite & Hkeep).
    assert (Hclip : forall v, VideoFileClip env (video_path env) = Some v ->
                              v = clip) by (intros; congruence).
    destruct Hrun; cbn [answer]; try reflexivity; try congruence;
      try (match goal with
           | H : VideoFileClip _ _ = Some _ |- _ => apply Hclip in H; subst
           end; congruence).
    exfalso. rewrite Hkeep in *.
    match goal with
    | H : Some [] = Some (_ ++ _ :: _) |- _ =>
        injection H as H; now destruct done
    end.
Qed.

Lemma no_audio_detected_iff_keep_list_empty_witness :
  fst (process_video (world 5000 [(0, 2000); (2000, 5000)]) (upload None))
  = Json 400 "No audio detected in the video"
  <-> exists video_clip : VideoClip,
        VideoFileClip (world 5000 [(0, 2000); (2000, 5000)])
                      (video_path (world 5000 [(0, 2000); (2000, 5000)]))
        = Some video_clip
        /\ has_audio video_clip = true
        /\ write_audiofile (world 5000 [(0, 2000); (2000, 5000)]) video_clip
                           (audio_path (world 5000 [(0, 2000); (2000, 5000)]))
           = true
        /\ get_non_silent_chunks (world 5000 [(0, 2000); (2000, 5000)])
             (audio_path (world 5000 [(0, 2000); (2000, 5000)]))
             (silence_thresh_db 30) min_silence_len_ms = Some [].
Proof.
  apply (no_audio_detected_iff_keep_list_empty
           (world 5000 [(0, 2000); (2000, 5000)]) (upload None)
           "talk.mp4" 30).
  - reflexivity.
  - reflexivity.
Defined.

(** ** The two functions together *)

Lemma non_silent_of_bounds (audio : AudioSegment) (l : list (Z * Z)) :
  0 < audio_len audio ->
  well_formed (audio_len audio) l = true ->
  Forall (fun iv : chunk =>
            (0 <= fst iv)%Q /\ (fst iv < snd iv)%Q
            /\ (snd iv <= to_sec (audio_len audio))%Q)
         (non_silent_of audio l).
Proof.
  intros HD Hwf. destruct l as [| a r].
  - simpl. constructor; [| constructor]. cbn [fst snd].
    split; [apply Qle_refl |]. split; [| apply Qle_refl].
    unfold to_sec, Qlt; simpl. lia.
  - rewrite non_silent_of_cons. apply Forall_map.
    eapply Forall_impl;
      [| apply gaps_bounds, well_formed_chain; [lia | exact Hwf]].
    intros [s e]; unfold sec; cbn [fst snd]. intros (H0 & Hse & HeD).
    split; [now apply to_sec_nonneg |].
    split; [apply (proj1 (to_sec_lt s e)); exact Hse |].
    apply (proj1 (to_sec_le e (audio_len audio))). exact HeD.
Qed.

Lemma subclip_event_in (l : list chunk) (s e : Q) :
  In (EvSubclip s e) (map subclip_event l) -> In (s, e) l.
Proof.
  intros H. apply in_map_iff in H as ([s' e'] & Heq & Hin).
  unfold subclip_event in Heq; cbn [fst snd] in Heq.
  injection Heq as -> ->. exact Hin.
Qed.

(** Every [subclip] call of a run is made for an interval of the keep
    list. *)
Lemma FullRun_subclip (env : Env) (filename : string) (thresh : pyfloat)
    (min_len : Z) (r : option Response) (evs : list Event)
    (o : option string) (s e : Q) :
  FullRun env filename thresh min_len r evs o ->
  In (EvSubclip s e) evs ->
  exists keep : list chunk,
    get_non_silent_chunks env (audio_path env) thresh min_len = Some keep
    /\ In (s, e) keep.
Proof.
  intros Hrun Hin.
  destruct Hrun; unfold opening in Hin;
    try (simpl in Hin; intuition discriminate);
    apply in_app_or in Hin as [Hin | Hin];
    try (simpl in Hin; intuition discriminate).
  - exists (done ++ c :: rest). split; [assumption |].
    apply subclip_event_in in Hin.
    apply in_app_or in Hin as [Hin | [<- | []]]; apply in_or_app;
      [now left | right; now left].
  - exists keep. split; [assumption |].
    apply in_app_or in Hin as [Hin | Hin];
      [now apply subclip_event_in | simpl in Hin; intuition discriminate].
  - exists keep. split; [assumption |].
    apply in_app_or in Hin as [Hin | Hin];
      [now apply subclip_event_in | simpl in Hin; intuition discriminate].
  - exists keep. split; [assumption |].
    apply in_app_or in Hin as [Hin | Hin];
      [now apply subclip_event_in | simpl in Hin; intuition discriminate].
Qed.

(** X16. When the extracted audio has a positive length and pydub reports a
    well-formed silence list for it, every [subclip] call the handler makes
    is for a non-empty interval inside the audio: [0 <= start < end <= D]. *)
Theorem extracted_clips_lie_within_the_audio (env : Env) (req : Request)
    (audio : AudioSegment) :
  from_file env (audio_path env) = Some audio ->
  0 < audio_len audio ->
  (forall p : pyfloat,
      threshold_percent env req = Some p ->
      well_formed (audio_len audio)
        (detect_silence env audio min_silence_len_ms (silence_thresh_db p))
      = true) ->
  forall start end_ : pyfloat,
    In (EvSubclip start end_) (snd (process_video env req)) ->
    (0 <= start)%Q /\ (start < end_)%Q
    /\ (end_ <= to_sec (audio_len audio))%Q.
Proof.
  intros Haudio HD Hwf start end_ Hin.
  destruct (files_video req) as [filename |] eqn:Hfile;
    [| unfold process_video in Hin; rewrite Hfile in Hin; contradiction].
  destruct (threshold_percent env req) as [p |] eqn:Hp;
    [| unfold process_video in Hin; rewrite Hfile, Hp in Hin; contradiction].
  destruct (process_video_full env req filename p Hfile Hp)
    as (r & evs & o & Hrun & Heq).
  rewrite Heq in Hin; cbn [snd] in Hin.
  destruct Hin as [Hin | Hin]; [discriminate |].
  apply in_app_or in Hin as [Hin | Hin];
    [| unfold removed in Hin; destruct o; simpl in Hin;
       intuition discriminate].
  destruct (FullRun_subclip _ _ _ _ _ _ _ _ _ Hrun Hin)
    as (keep & Hkeep & Hkin).
  rewrite (get_non_silent_chunks_decoded _ _ _ _ _ Haudio) in Hkeep.
  injection Hkeep as <-.
  pose proof (non_silent_of_bounds audio _ HD (Hwf p eq_refl)) as Hall.
  apply (proj1 (Forall_forall _ _) Hall) in Hkin. exact Hkin.
Qed.

Lemma extracted_clips_lie_within_the_audio_witness :
  (0 <= to_sec 3000)%Q /\ (to_sec 3000 < to_sec 6000)%Q
  /\ (to_sec 6000 <= to_sec 10000)%Q.
Proof.
  apply (extracted_clips_lie_within_the_audio
           (world 10000 [(2000, 3000); (6000, 10000)]) (upload None)
           (mkAudio 10000)).
  - reflexivity.
  - simpl. lia.
  - intros p _. reflexivity.
  - simpl. tauto.
Defined.
